(** * Error classification, health aggregation and correlation identifiers

  A shallow embedding of the Express application's decision logic:
  - [middleware/errorHandler]  (classifyError, generateSafeErrorMessage,
    createErrorResponse, centralizedErrorHandler),
  - [routes/health]            (the five validators, performHealthChecks,
    the GET /health handler),
  - [middleware/logger]        (correlationIdMiddleware),
  - the export of [config/index.js].

  Conventions of the embedding.
  - A JavaScript string is a [string]; one [ascii] stands for one UTF-16
    code unit below 256, so [String.length] is JavaScript's [.length].
  - A property that is absent (or [undefined]) is [None]; truthiness is
    written out ([truthy_num], [truthy_str], [Js.truthy]).
  - Handlers run in the monad [M]: a state (request, response, log) that
    survives a [throw], and an outcome that is a value or a thrown error. *)

From stdpp Require Import gmap strings list pretty.
From Stdlib Require Import ZArith Ascii.

Open Scope Z_scope.
Set Warnings "-register-all".

(* ===================================================================== *)
(** * Part I. Definitions                                                  *)
(* ===================================================================== *)

(** ** JavaScript values and strings *)

Module Js.

(** The values that travel through bodies, log lines and configuration.
    [JOpaque] is a truthy value the code hands on without looking inside
    (a function, [process.memoryUsage()], a nested settings object). *)
Inductive val : Type :=
| JUndefined
| JBool (b : bool)
| JNum (n : Z)
| JStr (s : string)
| JOpaque (what : string)
| JArr (items : list val)
| JObj (fields : list (string * val)).

(** ToBoolean. *)
Definition truthy (v : val) : bool :=
  match v with
  | JUndefined => false
  | JBool b => b
  | JNum n => negb (n =? 0)
  | JStr s => negb (String.eqb s EmptyString)
  | JOpaque _ => true
  | JArr _ => true
  | JObj _ => true
  end.

(** Own-property lookup in an object literal's fields; the first binding
    of a key is the one kept in the lists built here (no key is written
    twice in them). *)
Fixpoint assoc (k : string) (fs : list (string * val)) : option val :=
  match fs with
  | [] => None
  | (k', v) :: fs' => if String.eqb k k' then Some v else assoc k fs'
  end.

(** [o[k]] for the plain data objects of the model. *)
Definition get (k : string) (o : val) : val :=
  match o with
  | JObj fs => default JUndefined (assoc k fs)
  | _ => JUndefined
  end.

Definition has_field (k : string) (o : val) : bool :=
  match o with
  | JObj fs => bool_decide (is_Some (assoc k fs))
  | _ => false
  end.

Definition keys (o : val) : list string :=
  match o with
  | JObj fs => fs.*1
  | _ => []
  end.

(** An optional string property as a value. *)
Definition of_opt (o : option string) : val :=
  match o with Some s => JStr s | None => JUndefined end.

(** [a || b] on optional strings: the first truthy operand, else the last. *)
Definition truthy_str (o : option string) : bool :=
  match o with Some s => negb (String.eqb s EmptyString) | None => false end.

Definition truthy_num (o : option Z) : bool :=
  match o with Some n => negb (n =? 0) | None => false end.

Definition or_str (a b : option string) : option string :=
  if truthy_str a then a else b.

Definition or_num (a b : option Z) : option Z :=
  if truthy_num a then a else b.

(** *** Strings *)

Definition code (c : ascii) : N := N_of_ascii c.

Definition map_string (f : ascii -> ascii) : string -> string :=
  fix go (s : string) : string :=
    match s with
    | EmptyString => EmptyString
    | String c s' => String (f c) (go s')
    end.

(** [String.prototype.toLowerCase] on code units below 256: A-Z and the
    Latin-1 capitals (192..222 except the multiplication sign 215). *)
Definition lower_char (c : ascii) : ascii :=
  let n := code c in
  if ((65 <=? n) && (n <=? 90))%N then ascii_of_N (n + 32)
  else if ((192 <=? n) && (n <=? 222) && negb (n =? 215))%N
       then ascii_of_N (n + 32)
  else c.

Definition toLowerCase : string -> string := map_string lower_char.

(** Canonicalize of a case-insensitive RegExp without the unicode flag:
    the upper-case form when that is one code unit and does not take a
    non-ASCII unit into ASCII.  Below 256 that is a-z and 224..254 except
    the division sign 247 (the capitals of 181 and 255 lie above 255 and
    are shared with no other unit below 256, so they stay put). *)
Definition canonicalize (c : ascii) : ascii :=
  let n := code c in
  if ((97 <=? n) && (n <=? 122))%N then ascii_of_N (n - 32)
  else if ((224 <=? n) && (n <=? 254) && negb (n =? 247))%N
       then ascii_of_N (n - 32)
  else c.

Definition fold_case : string -> string := map_string canonicalize.

Fixpoint starts_with (needle hay : string) : bool :=
  match needle, hay with
  | EmptyString, _ => true
  | String a n', String b h' => Ascii.eqb a b && starts_with n' h'
  | String _ _, EmptyString => false
  end.

(** [hay.includes(needle)]. *)
Fixpoint includes (hay needle : string) : bool :=
  starts_with needle hay
  || match hay with
     | EmptyString => false
     | String _ h' => includes h' needle
     end.

Fixpoint drop (n : nat) (s : string) : string :=
  match n, s with
  | O, _ => s
  | S _, EmptyString => EmptyString
  | S n', String _ s' => drop n' s'
  end.

(** A line terminator below 256: the units the RegExp dot does not match. *)
Definition line_terminator (c : ascii) : bool :=
  ((code c =? 10) || (code c =? 13))%N.

(** Is [needle] found in [hay] after a run of units the dot matches? *)
Fixpoint after_dots (needle hay : string) : bool :=
  starts_with needle hay
  || match hay with
     | EmptyString => false
     | String c h' => negb (line_terminator c) && after_dots needle h'
     end.

(** The two shapes of regular expression the code uses, both with the
    [i] flag: a literal word, and a word, any run of non-terminators, a
    word ([/file.*path/i]). *)
Inductive RegExp : Type :=
| Lit (word : string)
| LitAnyLit (first second : string).

Fixpoint word_any_word (a b s : string) : bool :=
  (starts_with a s && after_dots b (drop (String.length a) s))
  || match s with
     | EmptyString => false
     | String _ s' => word_any_word a b s'
     end.

(** [pattern.test(s)]: a match anywhere in [s], letters compared after
    Canonicalize. *)
Definition test (p : RegExp) (s : string) : bool :=
  match p with
  | Lit w => includes (fold_case s) (fold_case w)
  | LitAnyLit a b => word_any_word (fold_case a) (fold_case b) (fold_case s)
  end.

(** Array.prototype.join. *)
Definition join (sep : string) (l : list string) : string :=
  String.concat sep l.

(** Template-literal rendering of an integer. *)
Definition show (n : Z) : string := pretty n.

(** [parseInt(s)] for a string that starts with its decimal digits, as the
    first dotted component of [process.version] does; [None] is NaN. *)
Definition digit (c : ascii) : option Z :=
  let n := code c in
  if ((48 <=? n) && (n <=? 57))%N then Some (Z.of_N n - 48) else None.

Fixpoint digits_from (acc : Z) (s : string) : Z :=
  match s with
  | EmptyString => acc
  | String c s' =>
      match digit c with
      | Some d => digits_from (10 * acc + d) s'
      | None => acc
      end
  end.

Definition parseInt (s : string) : option Z :=
  match s with
  | EmptyString => None
  | String c _ =>
      match digit c with
      | Some _ => Some (digits_from 0 s)
      | None => None
      end
  end.

(** [s.split('.')[0]]. *)
Fixpoint before_dot (s : string) : string :=
  match s with
  | EmptyString => EmptyString
  | String c s' =>
      if (code c =? 46)%N then EmptyString else String c (before_dot s')
  end.

(** [Math.round(bytes / 1024 / 1024)] for a byte count: both divisions are
    by a power of two, so the quotient is exact and rounding half up is
    the floor of the quotient plus one half. *)
Definition round_MB (bytes : Z) : Z := (bytes + 524288) / 1048576.

End Js.

Export Js(val(..)).

(** ** Failure values *)

(** A failure value as the handler reads it: the properties [status],
    [statusCode], [name], [constructor.name], [code], [message], [stack].
    Numeric and string properties hold a value of that type or are absent. *)
Module Failure.
Record t : Type := mk {
  status : option Z;
  statusCode : option Z;
  name : option string;
  constructor_name : option string;
  code : option string;
  message : option string;
  stack : option string
}.

(** [new Error(message)] with a stack. *)
Definition Error (msg : string) : t :=
  mk None None (Some "Error") (Some "Error") None (Some msg)
     (Some ("Error: " +:+ msg)).

(** The TypeError raised by reading a property of [undefined]. *)
Definition TypeError (msg : string) : t :=
  mk None None (Some "TypeError") (Some "TypeError") None (Some msg)
     (Some ("TypeError: " +:+ msg)).
End Failure.

(** ** The request, the response and the logger

    The part of the framework the handlers lean on: what [res.set] and
    [res.json] do once headers have gone out, and a logger whose calls may
    throw.  State changes made before a throw stay made. *)

Module Express.
Import Js.

Record Request : Type := {
  method : string;
  url : string;
  originalUrl : option string;
  headers : list (string * string);      (* req.headers, names in lower case *)
  correlationId : option string;         (* req.correlationId *)
  ip : option string;
  remoteAddress : option string;         (* req.connection.remoteAddress *)
  id : option string;
  startTime : option Z
}.

Record Response : Type := {
  statusCode : Z;
  res_headers : list (string * string);  (* newest first *)
  headersSent : bool;
  sent : list (Z * val)                  (* status and body written, oldest first *)
}.

Record LogLine : Type := {
  level : string;
  text : string;
  meta : list (string * val)
}.

Record World : Type := {
  req : Request;
  res : Response;
  log : list LogLine;                    (* lines written, oldest first *)
  calls : nat                            (* logger calls made so far *)
}.

(** What the surroundings supply during one request. *)
Record Env : Type := {
  logger_throws : nat -> bool;           (* does logger call number n throw? *)
  logger_failure : Failure.t;            (* the error it throws *)
  now_iso : string;                      (* new Date().toISOString() *)
  now_ms : Z;                            (* Date.now() *)
  random36 : string;                     (* Math.random().toString(36).substr(2, 9) *)
  uuid : string                          (* uuidv4() *)
}.

Inductive Outcome (A : Type) : Type :=
| Ret (a : A)
| Throw (e : Failure.t).
Arguments Ret {A} a.
Arguments Throw {A} e.

Definition M (A : Type) : Type := World -> Outcome A * World.

Definition ret {A : Type} (a : A) : M A := fun w => (Ret a, w).

Definition throw {A : Type} (e : Failure.t) : M A := fun w => (Throw e, w).

Definition bind {A B : Type} (m : M A) (k : A -> M B) : M B :=
  fun w =>
    match m w with
    | (Ret a, w') => k a w'
    | (Throw e, w') => (Throw e, w')
    end.

(** [try { body } catch (e) { handler e }]. *)
Definition try_catch {A : Type} (body : M A) (handler : Failure.t -> M A)
  : M A :=
  fun w =>
    match body w with
    | (Ret a, w') => (Ret a, w')
    | (Throw e, w') => handler e w'
    end.

#[global] Instance M_ret : MRet M := @ret.
#[global] Instance M_bind : MBind M := fun A B k m => bind m k.

Definition get_req : M Request := fun w => (Ret (req w), w).

Definition get_headersSent : M bool := fun w => (Ret (headersSent (res w)), w).

Definition with_req (f : Request -> Request) (w : World) : World :=
  {| req := f (req w); res := res w; log := log w; calls := calls w |}.

Definition with_res (f : Response -> Response) (w : World) : World :=
  {| req := req w; res := f (res w); log := log w; calls := calls w |}.

(** [req.headers[name]], [req.get(name)]. *)
Fixpoint header (name : string) (hs : list (string * string)) : option string :=
  match hs with
  | [] => None
  | (k, v) :: hs' => if String.eqb name k then Some v else header name hs'
  end.

Definition ERR_HTTP_HEADERS_SENT : Failure.t :=
  Failure.mk None None (Some "Error") (Some "Error")
    (Some "ERR_HTTP_HEADERS_SENT")
    (Some "Cannot set headers after they are sent to the client") None.

Definition ERR_HTTP_INVALID_STATUS_CODE : Failure.t :=
  Failure.mk None None (Some "RangeError") (Some "RangeError")
    (Some "ERR_HTTP_INVALID_STATUS_CODE") (Some "Invalid status code") None.

(** [res.status(code)]: records the code. *)
Definition res_status (code : Z) : M unit :=
  fun w =>
    (Ret tt,
     with_res (fun r => {| statusCode := code; res_headers := res_headers r;
                           headersSent := headersSent r; sent := sent r |}) w).

(** [res.set({...})], [res.setHeader(k, v)]: refused once headers are out. *)
Definition res_set (hs : list (string * string)) : M unit :=
  fun w =>
    if headersSent (res w) then (Throw ERR_HTTP_HEADERS_SENT, w)
    else
      (Ret tt,
       with_res (fun r => {| statusCode := statusCode r;
                             res_headers := rev hs ++ res_headers r;
                             headersSent := headersSent r; sent := sent r |}) w).

(** [res.json(body)]: sets headers and writes the head and the body; it is
    refused once headers are out, and the head is refused for a status
    code outside 100..999.  [sent] records the status and the body handed
    over. *)
Definition res_json (body : val) : M unit :=
  fun w =>
    let r := res w in
    if headersSent r then (Throw ERR_HTTP_HEADERS_SENT, w)
    else if (statusCode r <? 100) || (999 <? statusCode r)
    then (Throw ERR_HTTP_INVALID_STATUS_CODE, w)
    else
      (Ret tt,
       with_res (fun r => {| statusCode := statusCode r;
                             res_headers := res_headers r;
                             headersSent := true;
                             sent := sent r ++ [(statusCode r, body)] |}) w).

(** One call of a logger method. *)
Definition logger_call (env : Env) (lvl msg : string)
    (data : list (string * val)) : M unit :=
  fun w =>
    let n := calls w in
    if logger_throws env n
    then (Throw (logger_failure env),
          {| req := req w; res := res w; log := log w; calls := S n |})
    else (Ret tt,
          {| req := req w; res := res w;
             log := log w ++ [{| level := lvl; text := msg; meta := data |}];
             calls := S n |}).

(** The response a request starts with. *)
Definition fresh_response : Response :=
  {| statusCode := 200; res_headers := []; headersSent := false; sent := [] |}.

Definition start (r : Request) : World :=
  {| req := r; res := fresh_response; log := []; calls := 0 |}.

End Express.

(** ** config/logger: the exported object *)

Module LoggerConfig.
Import Js.

(** The logger [createLogger] returns, with the methods the handlers call. *)
Definition winston_logger : val :=
  JObj [ ("error", JOpaque "function"); ("warn", JOpaque "function");
         ("info", JOpaque "function"); ("http", JOpaque "function");
         ("verbose", JOpaque "function"); ("debug", JOpaque "function");
         ("silly", JOpaque "function"); ("log", JOpaque "function");
         ("child", JOpaque "function");
         ("addCorrelationId", JOpaque "function");
         ("startTimer", JOpaque "function") ].

(** [module.exports] of the logger factory: the logger sits under the
    property [logger], next to the helpers; the object itself has no
    method [error], [info] or [http]. *)
Definition exports : val :=
  JObj [ ("logger", winston_logger);
         ("createMorganStream", JOpaque "function");
         ("createChildLogger", JOpaque "function");
         ("addCorrelationId", JOpaque "function");
         ("setLogLevel", JOpaque "function");
         ("addFileLogging", JOpaque "function");
         ("close", JOpaque "function");
         ("levels", JOpaque "winston.config.npm.levels") ].

(** Calling [binding.method(...)] throws a TypeError when the binding has
    no such property. *)
Definition lacks (binding : val) (method : string) : bool :=
  negb (truthy (get method binding)).

(** [loggerConfig.logger || loggerConfig], the binding of routes/health. *)
Definition unwrapped : val :=
  if truthy (get "logger" exports) then get "logger" exports else exports.

End LoggerConfig.

(** ** middleware/errorHandler *)

Module ErrorHandler.
Import Js.

Inductive Category : Type := client | server.

Record Classification : Type := {
  status : Z;
  category : Category
}.

(** An object literal: properties are defined in source order, a later
    definition of a key replaces the earlier one. *)
Definition object_literal `{Countable K} {V : Type} (props : list (K * V))
  : gmap K V :=
  foldl (fun m kv => <[kv.1 := kv.2]> m) ∅ props.

Definition ERROR_CLASSIFICATIONS : gmap string Classification :=
  object_literal
    [ (* Client errors (4xx) *)
      ("ValidationError", {| status := 400; category := client |});
      ("CastError", {| status := 400; category := client |});
      ("SyntaxError", {| status := 400; category := client |});
      ("URIError", {| status := 400; category := client |});
      ("MulterError", {| status := 400; category := client |});
      (* Authentication and authorization errors *)
      ("UnauthorizedError", {| status := 401; category := client |});
      ("JsonWebTokenError", {| status := 401; category := client |});
      ("TokenExpiredError", {| status := 401; category := client |});
      ("ForbiddenError", {| status := 403; category := client |});
      (* Not found errors *)
      ("NotFoundError", {| status := 404; category := client |});
      ("CastError", {| status := 404; category := client |});
      (* Method and content errors *)
      ("MethodNotAllowedError", {| status := 405; category := client |});
      ("NotAcceptableError", {| status := 406; category := client |});
      ("UnsupportedMediaTypeError", {| status := 415; category := client |});
      ("PayloadTooLargeError", {| status := 413; category := client |});
      (* Rate limiting and conflict errors *)
      ("TooManyRequestsError", {| status := 429; category := client |});
      ("ConflictError", {| status := 409; category := client |});
      (* Server errors (5xx) *)
      ("InternalServerError", {| status := 500; category := server |});
      ("NotImplementedError", {| status := 501; category := server |});
      ("BadGatewayError", {| status := 502; category := server |});
      ("ServiceUnavailableError", {| status := 503; category := server |});
      ("GatewayTimeoutError", {| status := 504; category := server |}) ].

Definition SAFE_ERROR_MESSAGES : gmap Z string :=
  object_literal
    [ (400, "Bad Request - Invalid request format or parameters");
      (401, "Unauthorized - Authentication required");
      (403, "Forbidden - Access denied");
      (404, "Not Found - The requested resource was not found");
      (405, "Method Not Allowed - HTTP method not supported for this endpoint");
      (406, "Not Acceptable - Requested format not available");
      (409, "Conflict - Resource conflict detected");
      (413, "Payload Too Large - Request payload exceeds size limit");
      (415, "Unsupported Media Type - Content type not supported");
      (429, "Too Many Requests - Rate limit exceeded");
      (500, "Internal Server Error - An unexpected error occurred");
      (501, "Not Implemented - Feature not implemented");
      (502, "Bad Gateway - External service error");
      (503, "Service Unavailable - Service temporarily unavailable");
      (504, "Gateway Timeout - External service timeout") ].

(** The names every object inherits from [Object.prototype]; reading one
    of them from the table yields a function (or the prototype itself),
    a truthy value with no [status] and no [category]. *)
Definition Object_prototype_keys : list string :=
  [ "constructor"; "__defineGetter__"; "__defineSetter__"; "hasOwnProperty";
    "__lookupGetter__"; "__lookupSetter__"; "isPrototypeOf";
    "propertyIsEnumerable"; "toString"; "valueOf"; "__proto__";
    "toLocaleString" ].

(** What [classifyError] returns: a classification object, or the value
    inherited under a prototype key. *)
Inductive Classified : Type :=
| Entry (c : Classification)
| Inherited (key : string).

(** [key && ERROR_CLASSIFICATIONS[key]] when truthy. *)
Definition table_lookup (key : option string) : option Classified :=
  match key with
  | None => None
  | Some k =>
      if String.eqb k EmptyString then None
      else match ERROR_CLASSIFICATIONS !! k with
           | Some c => Some (Entry c)
           | None =>
               if bool_decide (k ∈ Object_prototype_keys)
               then Some (Inherited k) else None
           end
  end.

Definition result (s : Z) (c : Category) : Classified :=
  Entry {| status := s; category := c |}.

Definition classifyError (error : Failure.t) : Classified :=
  (* explicit status code on the error object *)
  if truthy_num (Failure.status error) || truthy_num (Failure.statusCode error)
  then
    let status :=
      default 0 (or_num (Failure.status error) (Failure.statusCode error)) in
    result status
           (if (400 <=? status) && (status <? 500) then client else server)
  else
  (* error name against the classification mapping *)
  match table_lookup (Failure.name error) with
  | Some r => r
  | None =>
  (* error constructor name *)
  match table_lookup (Failure.constructor_name error) with
  | Some r => r
  | None =>
  (* specific error codes *)
  if truthy_str (Failure.code error) then
    let code := default EmptyString (Failure.code error) in
    if bool_decide
         (code ∈ ["EADDRINUSE"; "ECONNREFUSED"; "ENOTFOUND"; "ETIMEDOUT"])
    then result 503 server
    else if String.eqb code "EACCES" then result 403 client
    else result 500 server
  else
  (* specific error message patterns *)
  let message :=
    if truthy_str (Failure.message error)
    then Some (toLowerCase (default EmptyString (Failure.message error)))
    else None in
  match message with
  | Some message =>
      if includes message "validation" || includes message "invalid"
      then result 400 client
      else if includes message "unauthorized"
              || includes message "authentication"
      then result 401 client
      else if includes message "forbidden" || includes message "permission"
      then result 403 client
      else if includes message "not found"
      then result 404 client
      else result 500 server
  | None => result 500 server
  end
  end
  end.

Definition sensitivePatterns : list RegExp :=
  [ Lit "password"; Lit "token"; Lit "secret"; Lit "key"; Lit "database";
    Lit "connection"; Lit "internal"; Lit "stack"; LitAnyLit "file" "path";
    Lit "directory"; Lit "config"; Lit "env" ].

Definition generateSafeErrorMessage (statusCode : Z) (error : Failure.t)
  : string :=
  (* predefined safe messages for known status codes *)
  match SAFE_ERROR_MESSAGES !! statusCode with
  | Some m => m
  | None =>
  let contextual :=
    if (400 <=? statusCode) && (statusCode <? 500)
       && truthy_str (Failure.message error)
    then
      let message := default EmptyString (Failure.message error) in
      let containsSensitiveInfo :=
        existsb (fun pattern => test pattern message) sensitivePatterns in
      if negb containsSensitiveInfo && (String.length message <? 200)%nat
      then Some ("Bad Request - " +:+ message)
      else None
    else None in
  match contextual with
  | Some m => m
  | None =>
      (* default safe messages by category *)
      if (400 <=? statusCode) && (statusCode <? 500)
      then "Bad Request - Invalid request format or parameters"
      else "Internal Server Error - An unexpected error occurred"
  end
  end.

(** [ErrorFactory.validation(message)] and [ErrorFactory.internal(message)]:
    an [Error] that is then given a name and a status. *)
Definition ErrorFactory_validation (message : string) : Failure.t :=
  Failure.mk (Some 400) None (Some "ValidationError") (Some "Error") None
    (Some message) (Some ("Error: " +:+ message)).

Definition ErrorFactory_internal (message : string) : Failure.t :=
  Failure.mk (Some 500) None (Some "InternalServerError") (Some "Error") None
    (Some message) (Some ("Error: " +:+ message)).

(** *** The handler *)

Section Handler.
Context (env : Express.Env).
Import Express.

Definition category_name (c : Category) : string :=
  match c with client => "client" | server => "server" end.

(** [category.toUpperCase()]. *)
Definition category_upper (c : Category) : string :=
  match c with client => "CLIENT" | server => "SERVER" end.

(** [req.correlationId || req.headers['x-correlation-id'] || 'unknown']. *)
Definition context_correlationId (req : Request) : string :=
  default "unknown"
    (or_str (or_str (correlationId req) (header "x-correlation-id" (headers req)))
            (Some "unknown")).

(** The request context; of its properties the model keeps those that are
    read again ([correlationId]) or identify the request, and leaves out
    [query], [params] and [body], which only go into the log line. *)
Definition extractRequestContext (req : Request) : list (string * val) :=
  [ ("method", JStr (method req));
    ("url", JStr (default (url req) (or_str (originalUrl req) (Some (url req)))));
    ("userAgent", of_opt (header "user-agent" (headers req)));
    ("ip", of_opt (or_str (ip req) (remoteAddress req)));
    ("correlationId", JStr (context_correlationId req));
    ("requestId", of_opt (or_str (id req) (header "x-request-id" (headers req))));
    ("timestamp", JStr (now_iso env));
    ("headers",
     JObj [ ("content-type", of_opt (header "content-type" (headers req)));
            ("accept", of_opt (header "accept" (headers req)));
            ("origin", of_opt (header "origin" (headers req)));
            ("referer", of_opt (header "referer" (headers req))) ]) ].

Record LogEntry : Type := {
  entry_message : string;
  entry_error : val;
  entry_request : list (string * val);
  entry_timestamp : string;
  entry_correlationId : string;
  errorId : string
}.

(** A template literal renders an absent property as "undefined". *)
Definition render (o : option string) : string := default "undefined" o.

Definition createErrorLogEntry (error : Failure.t) (req : Request)
    (classification : Classification) : LogEntry :=
  let requestContext := extractRequestContext req in
  {| entry_message :=
       category_upper (category classification) +:+ " ERROR: "
       +:+ render (Failure.message error);
     entry_error :=
       JObj [ ("name", of_opt (Failure.name error));
              ("message", of_opt (Failure.message error));
              ("stack", of_opt (Failure.stack error));
              ("code", of_opt (Failure.code error));
              ("status", JNum (status classification));
              ("category", JStr (category_name (category classification))) ];
     entry_request := requestContext;
     entry_timestamp := now_iso env;
     entry_correlationId := context_correlationId req;
     errorId := "err_" +:+ show (now_ms env) +:+ "_" +:+ random36 env |}.

Definition createErrorResponse (statusCode : Z) (message correlationId : string)
    (errorId : string) : val :=
  JObj
    ([ ("error", JBool true);
       ("status", JNum statusCode);
       ("message", JStr message);
       ("timestamp", JStr (now_iso env));
       ("correlationId",
        JStr (if String.eqb correlationId EmptyString then "unknown" else correlationId)) ]
     (* error ID for server errors *)
     ++ (if 500 <=? statusCode then [("errorId", JStr errorId)] else [])
     (* additional context for specific error types *)
     ++ (if statusCode =? 429 then [("retryAfter", JStr "60s")] else [])
     ++ (if statusCode =? 413 then [("maxSize", JStr "10MB")] else [])).

Definition security_headers : list (string * string) :=
  [ ("X-Content-Type-Options", "nosniff");
    ("X-Frame-Options", "DENY");
    ("X-XSS-Protection", "1; mode=block");
    ("Cache-Control", "no-cache, no-store, must-revalidate");
    ("Pragma", "no-cache");
    ("Expires", "0") ].

(** The minimal body of the fallback. *)
Definition minimal_response : val :=
  JObj [ ("error", JBool true);
         ("status", JNum 500);
         ("message", JStr "Internal Server Error - An unexpected error occurred");
         ("timestamp", JStr (now_iso env)) ].

Definition failure_summary (e : Failure.t) : val :=
  JObj [ ("name", of_opt (Failure.name e));
         ("message", of_opt (Failure.message e));
         ("stack", of_opt (Failure.stack e)) ].

(** The [try] block.  Step 1 cannot throw; Step 3 is the first statement to
    read [classification.category], which is [undefined] for an inherited
    value, so it throws there before any effect. *)
Definition handle_error (err : Failure.t) : M unit :=
  match classifyError err with
  | Inherited _ =>
      throw (Failure.TypeError
               "Cannot read properties of undefined (reading 'toUpperCase')")
  | Entry classification =>
      req ← get_req;
      let requestContext_correlationId := context_correlationId req in
      let logEntry := createErrorLogEntry err req classification in
      (* Step 4: log the error *)
      logger_call env "error" (entry_message logEntry)
        [ ("error", entry_error logEntry);
          ("request", JObj (entry_request logEntry));
          ("timestamp", JStr (entry_timestamp logEntry));
          ("correlationId", JStr (entry_correlationId logEntry));
          ("errorId", JStr (errorId logEntry));
          ("stackTrace",
           match category classification with
           | server => of_opt (Failure.stack err)
           | client => JUndefined
           end) ];;
      (* Step 5: client-safe message *)
      let safeMessage := generateSafeErrorMessage (status classification) err in
      (* Step 6: the response body *)
      let errorResponse :=
        createErrorResponse (status classification) safeMessage
          requestContext_correlationId (errorId logEntry) in
      (* Step 7: status code and security headers *)
      res_status (status classification);;
      res_set security_headers;;
      (* Step 8: deliver *)
      res_json errorResponse;;
      logger_call env "info" "Error handled successfully"
        [ ("errorId", JStr (errorId logEntry));
          ("status", JNum (status classification));
          ("category", JStr (category_name (category classification)));
          ("correlationId", JStr requestContext_correlationId);
          ("responseTime",
           JNum (now_ms env
                 - (if truthy_num (startTime req)
                    then default 0 (startTime req) else now_ms env))) ]
  end.

(** The [catch] block. *)
Definition handle_handler_error (err handlerError : Failure.t) : M unit :=
  logger_call env "error" "Critical error in error handler middleware"
    [ ("originalError", failure_summary err);
      ("handlerError", failure_summary handlerError);
      ("timestamp", JStr (now_iso env));
      ("criticalFailure", JBool true) ];;
  headersSent ← get_headersSent;
  if negb headersSent
  then res_status 500;; res_json minimal_response
  else mret tt.

Definition centralizedErrorHandler (err : Failure.t) : M unit :=
  try_catch (handle_error err) (handle_handler_error err).

End Handler.

End ErrorHandler.

(** ** config/index.js: the exported object *)

Module Config.
Import Js.

(** [module.exports]: a frozen object with exactly these seven properties,
    whatever the settings computed for each are. *)
Definition exports (server app logging middleware monitoring cluster utils : val)
  : val :=
  JObj [ ("server", server);
         ("app", app);
         ("logging", logging);
         ("middleware", middleware);
         ("monitoring", monitoring);
         ("cluster", cluster);
         ("utils", utils) ].

(** The export for a given environment name, host and port; the settings
    the health module never reads are opaque. *)
Definition loaded (env_name host : string) (port : Z) : val :=
  exports
    (JObj [ ("host", JStr host); ("port", JNum port);
            ("timeout", JOpaque "timeout");
            ("keepAliveTimeout", JOpaque "keepAliveTimeout");
            ("maxHeadersCount", JOpaque "maxHeadersCount") ])
    (JObj [ ("env", JStr env_name); ("name", JOpaque "name");
            ("version", JOpaque "version"); ("debug", JOpaque "debug");
            ("trustProxy", JOpaque "trustProxy") ])
    (JOpaque "logging") (JOpaque "middleware") (JOpaque "monitoring")
    (JOpaque "cluster") (JOpaque "utils").

End Config.

(** ** routes/health *)

Module Health.
Import Js Express.

(** The process as the checks read it. *)
Record Process : Type := {
  rss : Z;                               (* bytes *)
  heapUsed : Z;
  heapTotal : Z;
  uptime : Z;                            (* whole seconds *)
  pid : Z;
  version : string;                      (* process.version, "v18.17.0" *)
  platform : string;
  arch : string;
  npm_package_version : option string
}.

(** What the module finds when it is loaded and when it runs. *)
Record Runtime : Type := {
  config : val;                          (* the module-level [config] *)
  proc : Process;
  require_express : option string        (* [Some m]: require('express') throws m *)
}.

(** The fallback the module builds when the configuration module cannot be
    required. *)
Definition fallback_config (NODE_ENV HOST PORT : option string) : val :=
  JObj [ ("NODE_ENV", JStr (default "development" (or_str NODE_ENV (Some "development"))));
         ("PORT", match or_str PORT None with
                  | Some p => JStr p
                  | None => JNum 3000
                  end);
         ("HOST", JStr (default "127.0.0.1" (or_str HOST (Some "127.0.0.1")))) ].

Record Check : Type := {
  healthy : bool;
  message : string;
  details : list (string * val)
}.

Section Checks.
Context (env : Env) (rt : Runtime).

Definition memoryUsage : val :=
  JObj [ ("rss", JNum (rss (proc rt)));
         ("heapTotal", JNum (heapTotal (proc rt)));
         ("heapUsed", JNum (heapUsed (proc rt))) ].

Definition validateProcessHealth : Check :=
  {| healthy := true;
     message := "Process healthy";
     details := [ ("uptime", JNum (uptime (proc rt)));
                  ("memory", memoryUsage);
                  ("pid", JNum (pid (proc rt)));
                  ("nodeVersion", JStr (version (proc rt))) ] |}.

(** [config.NODE_ENV === 'production']. *)
Definition is_production (cfg : val) : bool :=
  match get "NODE_ENV" cfg with
  | JStr s => String.eqb s "production"
  | _ => false
  end.

Definition validateMemoryUsage : Check :=
  let heapUsedMB := round_MB (heapUsed (proc rt)) in
  let heapTotalMB := round_MB (heapTotal (proc rt)) in
  let rssMB := round_MB (rss (proc rt)) in
  let memoryThresholdMB := if is_production (config rt) then 150 else 100 in
  let healthy := rssMB <? memoryThresholdMB in
  {| healthy := healthy;
     message :=
       if healthy then "Memory usage within limits"
       else "Memory usage exceeded threshold: " +:+ show rssMB +:+ "MB > "
            +:+ show memoryThresholdMB +:+ "MB";
     details := [ ("heapUsed", JStr (show heapUsedMB +:+ "MB"));
                  ("heapTotal", JStr (show heapTotalMB +:+ "MB"));
                  ("rss", JStr (show rssMB +:+ "MB"));
                  ("threshold", JStr (show memoryThresholdMB +:+ "MB")) ] |}.

Definition validateConfiguration : Check :=
  let requiredConfig := ["NODE_ENV"; "HOST"; "PORT"] in
  let missingConfig :=
    filter (fun key => truthy (get key (config rt)) = false) requiredConfig in
  if (0 <? length missingConfig)%nat
  then {| healthy := false;
          message := "Missing required configuration: " +:+ join ", " missingConfig;
          details := [ ("missing", JArr (map JStr missingConfig)) ] |}
  else {| healthy := true;
          message := "Configuration validated";
          details := [ ("environment", get "NODE_ENV" (config rt));
                       ("host", get "HOST" (config rt));
                       ("port", get "PORT" (config rt)) ] |}.

Definition validateEnvironment : Check :=
  let nodeVersion := version (proc rt) in
  (* parseInt(nodeVersion.slice(1).split('.')[0]) *)
  let majorVersion := parseInt (before_dot (drop 1 nodeVersion)) in
  let minVersion := 14 in
  let info := [ ("nodeVersion", JStr nodeVersion);
                ("platform", JStr (platform (proc rt)));
                ("arch", JStr (arch (proc rt))) ] in
  (* a comparison with NaN is false *)
  if match majorVersion with Some v => v <? minVersion | None => false end
  then {| healthy := false;
          message := "Node.js version " +:+ nodeVersion
                     +:+ " below minimum required v" +:+ show minVersion +:+ ".x";
          details := info |}
  else {| healthy := true; message := "Environment validated"; details := info |}.

Record Dependency : Type := {
  available : bool;
  dep_message : string
}.

Definition checkExpressDependency : Dependency :=
  match require_express rt with
  | None => {| available := true; dep_message := "Express.js available" |}
  | Some m => {| available := false;
                 dep_message := "Express.js not available: " +:+ m |}
  end.

(** Winston or the console fallback: available either way; only the text
    differs, and no check reads it. *)
Definition checkLoggerDependency : Dependency :=
  {| available := true; dep_message := "Winston structured logging available" |}.

Definition checkConfigDependency : Dependency :=
  {| available := true; dep_message := "Configuration module available" |}.

Definition dependency_val (d : Dependency) : val :=
  JObj [ ("available", JBool (available d)); ("message", JStr (dep_message d)) ].

Definition validateDependencies : Check :=
  let dependencies :=
    [ ("express", checkExpressDependency);
      ("logger", checkLoggerDependency);
      ("config", checkConfigDependency) ] in
  let failedDeps := filter (fun kd => available kd.2 = false) dependencies in
  let shown := JObj (map (fun kd => (kd.1, dependency_val kd.2)) dependencies) in
  if (0 <? length failedDeps)%nat
  then
    let failureMessages :=
      map (fun kd => kd.1 +:+ ": " +:+ dep_message kd.2) failedDeps in
    {| healthy := false;
       message := "Dependency failures: " +:+ join ", " failureMessages;
       details := [ ("dependencies", shown) ] |}
  else {| healthy := true;
          message := "All dependencies available";
          details := [ ("dependencies", shown) ] |}.

(** The five checks, in the order their keys are written. *)
Definition run_checks : list (string * Check) :=
  [ ("process", validateProcessHealth);
    ("memory", validateMemoryUsage);
    ("configuration", validateConfiguration);
    ("environment", validateEnvironment);
    ("dependencies", validateDependencies) ].

(** The tail of [performHealthChecks], for any table of checks. *)
Definition report (checks : list (string * Check)) : M (list (string * Check)) :=
  let failedChecks := filter (fun kc => healthy kc.2 = false) checks in
  if (0 <? length failedChecks)%nat
  then
    let failureMessages :=
      map (fun kc => kc.1 +:+ ": " +:+ message kc.2) failedChecks in
    throw (Failure.Error ("Health check failures: " +:+ join ", " failureMessages))
  else mret checks.

Definition performHealthChecks : M (list (string * Check)) := report run_checks.

(** The identifier the three routes of this module each compute. *)
Definition route_correlationId (prefix : string) (req : Request) : string :=
  default EmptyString
    (or_str
       (or_str (header "x-correlation-id" (headers req))
               (header "x-request-id" (headers req)))
       (Some (prefix +:+ "-" +:+ show (now_ms env) +:+ "-" +:+ random36 env))).

Definition remoteAddr (req : Request) : val :=
  JStr (default "127.0.0.1"
          (or_str (or_str (ip req) (remoteAddress req)) (Some "127.0.0.1"))).

Definition userAgent (req : Request) : val :=
  JStr (default "unknown"
          (or_str (header "user-agent" (headers req)) (Some "unknown"))).

(** [router.get('/health', ...)]. *)
Definition get_health : M unit :=
  req ← get_req;
  let correlationId := route_correlationId "health" req in
  try_catch
    (healthStatus ← performHealthChecks;
     let healthResponse :=
       JObj [ ("status", JStr "ok");
              ("timestamp", JStr (now_iso env));
              ("service", JStr "hao-backprop-test");
              ("version",
               JStr (default "1.0.0"
                       (or_str (npm_package_version (proc rt)) (Some "1.0.0"))));
              ("uptime", JNum (uptime (proc rt)));
              ("environment", get "NODE_ENV" (config rt));
              ("server", JObj [ ("host", get "HOST" (config rt));
                                ("port", get "PORT" (config rt));
                                ("nodeVersion", JStr (version (proc rt))) ]);
              ("process", JObj [ ("pid", JNum (pid (proc rt)));
                                 ("memory", memoryUsage);
                                 ("cpuUsage", JOpaque "cpuUsage") ]);
              ("correlationId", JStr correlationId) ] in
     logger_call env "http" "Health check successful"
       [ ("correlationId", JStr correlationId);
         ("method", JStr "GET");
         ("url", JStr "/health");
         ("status", JNum 200);
         ("responseTime", JOpaque "responseTime");
         ("remoteAddr", remoteAddr req);
         ("userAgent", userAgent req);
         ("healthStatus", JStr "ok");
         ("uptime", JNum (uptime (proc rt)));
         ("environment", get "NODE_ENV" (config rt)) ];;
     res_status 200;;
     res_json healthResponse)
    (fun error =>
       let errorResponse :=
         JObj [ ("status", JStr "error");
                ("timestamp", JStr (now_iso env));
                ("service", JStr "hao-backprop-test");
                ("message", JStr "Health check failed");
                ("error", JObj [ ("name", of_opt (Failure.name error));
                                 ("message", of_opt (Failure.message error));
                                 ("type", of_opt (Failure.constructor_name error)) ]);
                ("correlationId", JStr correlationId);
                ("environment", get "NODE_ENV" (config rt)) ] in
       logger_call env "error" "Health check failed"
         [ ("correlationId", JStr correlationId);
           ("method", JStr "GET");
           ("url", JStr "/health");
           ("status", JNum 503);
           ("responseTime", JOpaque "responseTime");
           ("remoteAddr", remoteAddr req);
           ("userAgent", userAgent req);
           ("healthStatus", JStr "error");
           ("error", JObj [ ("name", of_opt (Failure.name error));
                            ("message", of_opt (Failure.message error));
                            ("stack", of_opt (Failure.stack error)) ]);
           ("environment", get "NODE_ENV" (config rt)) ];;
       res_status 503;;
       res_json errorResponse).

End Checks.

End Health.

(** ** middleware/logger *)

Module LoggerMiddleware.
Import Js Express.

Section Middleware.
Context (env : Env).

Definition generateCorrelationId : string := uuid env.

(** The middleware up to its call of [next()], which it makes on both
    paths. *)
Definition correlationIdMiddleware : M unit :=
  req0 ← get_req;
  try_catch
    (let correlationId := generateCorrelationId in
     (* req.correlationId = correlationId *)
     (fun w =>
        (Ret tt,
         with_req (fun r => {| method := method r; url := url r;
                               originalUrl := originalUrl r;
                               headers := headers r;
                               Express.correlationId := Some correlationId;
                               ip := ip r; remoteAddress := remoteAddress r;
                               id := id r; startTime := startTime r |}) w));;
     res_set [("X-Correlation-ID", correlationId)];;
     logger_call env "info" "Request initiated"
       [ ("correlationId", JStr correlationId);
         ("method", JStr (method req0));
         ("url", JStr (url req0));
         ("userAgent", of_opt (header "user-agent" (headers req0)));
         ("remoteAddr", of_opt (or_str (ip req0) (remoteAddress req0)));
         ("timestamp", JStr (now_iso env)) ])
    (fun error =>
       logger_call env "error" "Correlation ID middleware error"
         [ ("error", of_opt (Failure.message error));
           ("stack", of_opt (Failure.stack error));
           ("method", JStr (method req0));
           ("url", JStr (url req0));
           ("timestamp", JStr (now_iso env)) ]).

End Middleware.

End LoggerMiddleware.

(** ** middleware/errorHandler: the 404 handler and the error factory *)

Module Factories.
Import Js Express ErrorHandler.

(** [notFoundHandler]: the error it hands to [next]. *)
Definition notFoundHandler (req : Request) : Failure.t :=
  let message :=
    "Route not found: " +:+ method req +:+ " "
    +:+ default (url req) (or_str (originalUrl req) (Some (url req))) in
  Failure.mk (Some 404) None (Some "NotFoundError") (Some "Error") None
    (Some message) (Some ("Error: " +:+ message)).

(** The six functions of [ErrorFactory]. *)
Inductive Factory : Type :=
| validation | unauthorized | forbidden | notFound | conflict | internal.

Definition factory_name (f : Factory) : string :=
  match f with
  | validation => "ValidationError"
  | unauthorized => "UnauthorizedError"
  | forbidden => "ForbiddenError"
  | notFound => "NotFoundError"
  | conflict => "ConflictError"
  | internal => "InternalServerError"
  end.

Definition factory_status (f : Factory) : Z :=
  match f with
  | validation => 400
  | unauthorized => 401
  | forbidden => 403
  | notFound => 404
  | conflict => 409
  | internal => 500
  end.

(** The message of the error: the argument, or the parameter's default
    when the argument is [undefined]; [notFound] takes a resource name. *)
Definition factory_message (f : Factory) (arg : option string) : string :=
  match f with
  | validation => default EmptyString arg
  | unauthorized => default "Authentication required" arg
  | forbidden => default "Access denied" arg
  | notFound => default "Resource" arg +:+ " not found"
  | conflict => default "Resource conflict detected" arg
  | internal => default "An internal error occurred" arg
  end.

(** [ErrorFactory.f(arg)]: an [Error] given the factory's name and status. *)
Definition ErrorFactory (f : Factory) (arg : option string) : Failure.t :=
  Failure.mk (Some (factory_status f)) None (Some (factory_name f))
    (Some "Error") None (Some (factory_message f arg))
    (Some ("Error: " +:+ factory_message f arg)).

End Factories.

(** ** routes/health: readiness and ping *)

Module Readiness.
Import Js Express Health.

(** [a && b]: the left operand when it is falsy, the right one otherwise. *)
Definition js_and (a b : val) : val := if truthy a then b else a.

(** A value inside a template literal, for the values that occur there. *)
Definition template (v : val) : string :=
  match v with
  | JStr s => s
  | JNum n => show n
  | JBool true => "true"
  | JBool false => "false"
  | JUndefined => "undefined"
  | _ => "[object Object]"
  end.

Section Ready.
(** [versions_node] is [process.versions.node], the version without its
    leading "v". *)
Context (env : Env) (rt : Runtime) (versions_node : string).

Definition validateServerReadiness : val :=
  (* typeof require === 'function' && process.versions.node *)
  let serverReady := js_and (JBool true) (JStr versions_node) in
  JObj [ ("ready", serverReady);
         ("host", get "HOST" (config rt));
         ("port", get "PORT" (config rt));
         ("nodeVersion", JStr (version (proc rt)));
         ("message",
          JStr (if truthy serverReady then "Server ready" else "Server not ready")) ].

Definition validateConfigurationReadiness : val :=
  let essential :=
    js_and (js_and (get "HOST" (config rt)) (get "PORT" (config rt)))
           (get "NODE_ENV" (config rt)) in
  JObj [ ("ready", essential);
         ("environment", get "NODE_ENV" (config rt));
         ("message",
          JStr (if truthy essential then "Configuration ready"
                else "Configuration incomplete")) ].

Definition validateDependencyReadiness : val :=
  let expressAvailable := available (checkExpressDependency rt) in
  let loggerAvailable := available checkLoggerDependency in
  let ready := expressAvailable && loggerAvailable in
  JObj [ ("ready", JBool ready);
         ("express", JBool expressAvailable);
         ("logger", JBool loggerAvailable);
         ("message",
          JStr (if ready then "Dependencies ready" else "Dependencies not ready")) ].

(** What [performReadinessChecks] returns. *)
Record Readiness : Type := {
  ready : bool;
  checks : list (string * val);
  failureReason : option string
}.

Definition performReadinessChecks : Readiness :=
  let checks :=
    [ ("server", validateServerReadiness);
      ("configuration", validateConfigurationReadiness);
      ("dependencies", validateDependencyReadiness) ] in
  let notReady := filter (fun kc => truthy (get "ready" kc.2) = false) checks in
  if (0 <? length notReady)%nat
  then
    let failureReasons :=
      map (fun kc => kc.1 +:+ ": " +:+ template (get "message" kc.2)) notReady in
    {| ready := false; checks := checks;
       failureReason := Some (join ", " failureReasons) |}
  else {| ready := true; checks := checks; failureReason := None |}.

(** [router.get('/ready', ...)]. *)
Definition get_ready : M unit :=
  req ← get_req;
  let correlationId := route_correlationId env "ready" req in
  try_catch
    (let readinessChecks := performReadinessChecks in
     if ready readinessChecks
     then
       let readyResponse :=
         JObj [ ("status", JStr "ready");
                ("timestamp", JStr (now_iso env));
                ("service", JStr "hao-backprop-test");
                ("checks", JObj (checks readinessChecks));
                ("correlationId", JStr correlationId) ] in
       logger_call env "info" "Service readiness check passed"
         [ ("correlationId", JStr correlationId);
           ("method", JStr "GET");
           ("url", JStr "/ready");
           ("status", JNum 200);
           ("responseTime", JOpaque "responseTime");
           ("readinessStatus", JStr "ready");
           ("checks", JObj (checks readinessChecks)) ];;
       res_status 200;;
       res_json readyResponse
     else
       throw (Failure.Error
                ("Readiness check failed: "
                 +:+ default "undefined" (failureReason readinessChecks))))
    (fun error =>
       logger_call env "error" "Service readiness check failed"
         [ ("correlationId", JStr correlationId);
           ("method", JStr "GET");
           ("url", JStr "/ready");
           ("status", JNum 503);
           ("responseTime", JOpaque "responseTime");
           ("readinessStatus", JStr "not ready");
           ("error", of_opt (Failure.message error)) ];;
       res_status 503;;
       res_json
         (JObj [ ("status", JStr "not ready");
                 ("timestamp", JStr (now_iso env));
                 ("service", JStr "hao-backprop-test");
                 ("message", JStr "Service not ready");
                 ("error", of_opt (Failure.message error));
                 ("correlationId", JStr correlationId) ])).

(** [router.get('/ping', ...)] of the health router. *)
Definition get_ping : M unit :=
  req ← get_req;
  let correlationId := route_correlationId env "ping" req in
  try_catch
    (let pingResponse :=
       JObj [ ("status", JStr "ok");
              ("timestamp", JStr (now_iso env));
              ("service", JStr "hao-backprop-test");
              ("correlationId", JStr correlationId) ] in
     logger_call env "http" "Ping health check"
       [ ("correlationId", JStr correlationId);
         ("method", JStr "GET");
         ("url", JStr "/ping");
         ("status", JNum 200);
         ("responseTime", JOpaque "responseTime");
         ("healthStatus", JStr "ok") ];;
     res_status 200;;
     res_json pingResponse)
    (fun error =>
       logger_call env "error" "Ping health check failed"
         [ ("correlationId", JStr correlationId);
           ("method", JStr "GET");
           ("url", JStr "/ping");
           ("status", JNum 503);
           ("responseTime", JOpaque "responseTime");
           ("error", of_opt (Failure.message error)) ];;
       res_status 503;;
       res_json
         (JObj [ ("status", JStr "error");
                 ("timestamp", JStr (now_iso env));
                 ("service", JStr "hao-backprop-test");
                 ("message", JStr "Ping failed");
                 ("correlationId", JStr correlationId) ])).

End Ready.

End Readiness.

(** ** config/index.js: parsing and validation of the environment *)

Module ConfigUtils.
Import Js Express.

(** White space and line terminators below 256, what [trim] and [parseInt]
    skip. *)
Definition is_space (c : ascii) : bool :=
  let n := code c in
  ((9 <=? n) && (n <=? 13) || (n =? 32) || (n =? 160))%N.

Fixpoint trimStart (s : string) : string :=
  match s with
  | EmptyString => EmptyString
  | String c s' => if is_space c then trimStart s' else s
  end.

Fixpoint trimEnd (s : string) : string :=
  match s with
  | EmptyString => EmptyString
  | String c s' =>
      match trimEnd s' with
      | EmptyString => if is_space c then EmptyString else String c EmptyString
      | r => String c r
      end
  end.

Definition trim (s : string) : string := trimEnd (trimStart s).

(** [parseInt(s, 10)]: leading white space, an optional sign, then the
    longest run of decimal digits; [None] is NaN.  The value is exact; a
    value beyond 2^53, which JavaScript rounds, is only ever compared
    with bounds far below it. *)
Definition parseInt10 (s : string) : option Z :=
  let s := trimStart s in
  let signed :=
    match s with
    | String c r =>
        if (code c =? 45)%N then (-1, r)
        else if (code c =? 43)%N then (1, r)
        else (1, s)
    | EmptyString => (1, s)
    end in
  match signed.2 with
  | String c _ =>
      match digit c with
      | Some _ => Some (signed.1 * digits_from 0 signed.2)
      | None => None
      end
  | EmptyString => None
  end.

(** A value together with the lines written by [console.warn]. *)
Definition Warned (A : Type) : Type := A * list string.

(** [configUtils.parseInt(value, defaultValue, min, max)]. *)
Definition parseInt (value : option string) (defaultValue min max : Z)
  : Warned Z :=
  if negb (truthy_str value) then (defaultValue, [])
  else
    let value := default EmptyString value in
    match parseInt10 value with
    | None =>
        (defaultValue,
         [ "Configuration warning: Invalid integer value " +:+ String "034" value
           +:+ String "034" (", using default " +:+ show defaultValue) ])
    | Some parsed =>
        if (parsed <? min) || (max <? parsed)
        then (defaultValue,
              [ "Configuration warning: Value " +:+ show parsed
                +:+ " out of range [" +:+ show min +:+ ", " +:+ show max
                +:+ "], using default " +:+ show defaultValue ])
        else (parsed, [])
    end.

(** [configUtils.parseString(value, defaultValue, allowedValues)];
    [allowedValues] is [None] for [null]. *)
Definition parseString (value : option string) (defaultValue : string)
    (allowedValues : option (list string)) : Warned string :=
  if negb (truthy_str value) then (defaultValue, [])
  else
    let trimmed := trim (default EmptyString value) in
    if String.eqb trimmed EmptyString then (defaultValue, [])
    else
      match allowedValues with
      | Some allowed =>
          if negb (bool_decide (trimmed ∈ allowed))
          then (defaultValue,
                [ "Configuration warning: Invalid value " +:+ String "034" trimmed
                  +:+ String "034" (", allowed values: " +:+ join ", " allowed
                                    +:+ ", using default " +:+ defaultValue) ])
          else (trimmed, [])
      | None => (trimmed, [])
      end.

Definition show_bool (b : bool) : string := if b then "true" else "false".

(** [configUtils.parseBoolean(value, defaultValue)]. *)
Definition parseBoolean (value : option string) (defaultValue : bool)
  : Warned bool :=
  if negb (truthy_str value) then (defaultValue, [])
  else
    let normalized := trim (toLowerCase (default EmptyString value)) in
    if bool_decide (normalized ∈ ["true"; "1"; "yes"; "on"; "enabled"])
    then (true, [])
    else if bool_decide (normalized ∈ ["false"; "0"; "no"; "off"; "disabled"])
    then (false, [])
    else (defaultValue,
          [ "Configuration warning: Invalid boolean value "
            +:+ String "034" (default EmptyString value)
            +:+ String "034" (", using default " +:+ show_bool defaultValue) ]).

(** *** Host names *)

Definition is_digit (c : ascii) : bool :=
  let n := code c in ((48 <=? n) && (n <=? 57))%N.

Definition is_alnum (c : ascii) : bool :=
  let n := code c in
  ((48 <=? n) && (n <=? 57) || (65 <=? n) && (n <=? 90)
   || (97 <=? n) && (n <=? 122))%N.

Definition is_hyphen (c : ascii) : bool := (code c =? 45)%N.

Fixpoint all_chars (p : ascii -> bool) (s : string) : bool :=
  match s with
  | EmptyString => true
  | String c s' => p c && all_chars p s'
  end.

Fixpoint last_char (s : string) : option ascii :=
  match s with
  | EmptyString => None
  | String c EmptyString => Some c
  | String _ s' => last_char s'
  end.

(** The parts of a string between its dots. *)
Fixpoint split_dots (s : string) : list string :=
  match s with
  | EmptyString => [EmptyString]
  | String c s' =>
      if (code c =? 46)%N then EmptyString :: split_dots s'
      else match split_dots s' with
           | part :: parts => String c part :: parts
           | [] => [String c EmptyString]
           end
  end.

(** [/^(localhost|127\.0\.0\.1|0\.0\.0\.0)$/]. *)
Definition localhostPattern (s : string) : bool :=
  bool_decide (s ∈ ["localhost"; "127.0.0.1"; "0.0.0.0"]).

(** [/^(\d{1,3}\.){3}\d{1,3}$/]: four runs of one to three digits. *)
Definition ipPattern (s : string) : bool :=
  let parts := split_dots s in
  (length parts =? 4)%nat
  && forallb (fun part => (1 <=? String.length part)%nat
                          && (String.length part <=? 3)%nat
                          && all_chars is_digit part) parts.

(** One label of the domain pattern,
    [[a-zA-Z0-9]([a-zA-Z0-9-]{0,61}[a-zA-Z0-9])?]: one to 63 letters, digits
    and hyphens, the first and the last not a hyphen. *)
Definition label (s : string) : bool :=
  match s with
  | EmptyString => false
  | String c _ =>
      is_alnum c
      && (String.length s <=? 63)%nat
      && all_chars (fun x => is_alnum x || is_hyphen x) s
      && match last_char s with Some l => is_alnum l | None => false end
  end.

(** The domain pattern: labels separated by dots. *)
Definition domainPattern (s : string) : bool :=
  forallb label (split_dots s).

Definition isValidHost (host : string) : bool :=
  if String.eqb host EmptyString then false
  else localhostPattern host || ipPattern host || domainPattern host.

(** *** The settings read at load time *)

Section Settings.
(** [process.env]. *)
Context (penv : gmap string string).

Definition server_host : Warned string :=
  let '(envHost, ws) :=
    parseString (or_str (penv !! "HOST") (penv !! "HOSTNAME")) "127.0.0.1" None in
  if negb (isValidHost envHost)
  then ("127.0.0.1",
        ws ++ [ "Configuration warning: Invalid host " +:+ String "034" envHost
                +:+ String "034" ", using default 127.0.0.1" ])
  else (envHost, ws).

Definition server_port : Warned Z := parseInt (penv !! "PORT") 3000 1024 65535.

Definition server_timeout : Warned Z :=
  parseInt (penv !! "SERVER_TIMEOUT") 30000 1000 300000.

Definition environments : list string :=
  ["development"; "staging"; "production"; "test"].

Definition app_env : Warned string :=
  parseString (penv !! "NODE_ENV") "development" (Some environments).

Definition logging_file : Warned bool :=
  parseBoolean (penv !! "LOG_FILE") (String.eqb app_env.1 "production").

Definition logging_directory : Warned string :=
  parseString (penv !! "LOG_DIRECTORY") "./logs" None.

(** The errors [validateConfiguration] collects. *)
Definition validationErrors : list string :=
  (if String.eqb server_host.1 EmptyString || negb (isValidHost server_host.1)
   then ["Invalid server host: " +:+ server_host.1] else [])
  ++ (if (server_port.1 <? 1024) || (65535 <? server_port.1)
      then ["Invalid server port: " +:+ show server_port.1
            +:+ " (must be between 1024-65535)"] else [])
  ++ (if negb (bool_decide (app_env.1 ∈ environments))
      then ["Invalid NODE_ENV: " +:+ app_env.1] else [])
  ++ (if logging_file.1 && String.eqb logging_directory.1 EmptyString
      then ["Log directory must be specified when file logging is enabled"]
      else []).

(** [validateConfiguration()]: [true], or the error it throws after
    printing the collected errors with [console.error]. *)
Definition validateConfiguration : Outcome bool :=
  if (0 <? length validationErrors)%nat
  then Throw (Failure.Error
                "Invalid configuration detected. Please check your environment variables.")
  else Ret true.

End Settings.

End ConfigUtils.

(** ** routes/api: the users resource *)

Module Api.
Import Js Express.

Definition hex_digit (c : ascii) : option Z :=
  let n := code c in
  if ((48 <=? n) && (n <=? 57))%N then Some (Z.of_N n - 48)
  else if ((97 <=? n) && (n <=? 102))%N then Some (Z.of_N n - 87)
  else if ((65 <=? n) && (n <=? 70))%N then Some (Z.of_N n - 55)
  else None.

Fixpoint hex_from (acc : Z) (s : string) : Z :=
  match s with
  | EmptyString => acc
  | String c s' =>
      match hex_digit c with
      | Some d => hex_from (16 * acc + d) s'
      | None => acc
      end
  end.

(** [parseInt(s)] with no radix: leading white space, an optional sign,
    then hexadecimal digits after [0x] or [0X], decimal digits otherwise;
    [None] is NaN.  The value is exact: it is the JavaScript number as
    long as it stays below 2^53, and lies on the same side of every
    smaller bound beyond that. *)
Definition parseInt (s : string) : option Z :=
  let s := ConfigUtils.trimStart s in
  let signed :=
    match s with
    | String c r =>
        if (code c =? 45)%N then (-1, r)
        else if (code c =? 43)%N then (1, r)
        else (1, s)
    | EmptyString => (1, s)
    end in
  let decimal :=
    match signed.2 with
    | String c _ =>
        match digit c with
        | Some _ => Some (signed.1 * digits_from 0 signed.2)
        | None => None
        end
    | EmptyString => None
    end in
  match signed.2 with
  | String z (String x r) =>
      if ((code z =? 48) && ((code x =? 120) || (code x =? 88)))%N
      then match r with
           | String c _ =>
               match hex_digit c with
               | Some _ => Some (signed.1 * hex_from 0 r)
               | None => None
               end
           | EmptyString => None
           end
      else decimal
  | _ => decimal
  end.

(** [parseInt(q) || d] for a query parameter, [None] when it is absent. *)
Definition number_or (q : option string) (d : Z) : Z :=
  match q ≫= parseInt with
  | Some n => if n =? 0 then d else n
  | None => d
  end.

Record User : Type := {
  id : Z;
  name : string;
  email : string;
  role : string
}.

Definition mockUsers : list User :=
  [ {| id := 1; name := "John Doe"; email := "john@example.com"; role := "admin" |};
    {| id := 2; name := "Jane Smith"; email := "jane@example.com"; role := "user" |};
    {| id := 3; name := "Bob Johnson"; email := "bob@example.com"; role := "user" |};
    {| id := 4; name := "Alice Brown"; email := "alice@example.com";
       role := "moderator" |};
    {| id := 5; name := "Charlie Wilson"; email := "charlie@example.com";
       role := "user" |} ].

(** [Array.prototype.slice(start, end)] for integer arguments. *)
Definition slice {A : Type} (start final : Z) (l : list A) : list A :=
  let len := Z.of_nat (length l) in
  let k := if start <? 0 then Z.max (len + start) 0 else Z.min start len in
  let e := if final <? 0 then Z.max (len + final) 0 else Z.min final len in
  take (Z.to_nat (e - k)) (skipn (Z.to_nat k) l).

(** [Math.ceil(a / b)] for integers, [b] not zero. *)
Definition ceil_div (a b : Z) : Z := - ((- a) / b).

(** The object [GET /api/users] hands to [res.json]; [filter] is [None]
    for [null]. *)
Record UsersResponse : Type := {
  success : bool;
  data : list User;
  page : Z;
  limit : Z;
  total : Z;
  pages : Z;
  filter : option string
}.

Definition filteredUsers (query_filter : option string) : list User :=
  let filter := default EmptyString (or_str query_filter (Some EmptyString)) in
  if negb (String.eqb filter EmptyString)
  then List.filter
         (fun user =>
            includes (toLowerCase (name user)) (toLowerCase filter)
            || includes (toLowerCase (email user)) (toLowerCase filter))
         mockUsers
  else mockUsers.

(** [router.get('/users', ...)] up to the response object: the query
    parameters are strings or absent. *)
Definition users_response (query_page query_limit query_filter : option string)
  : UsersResponse :=
  let page := number_or query_page 1 in
  let limit := number_or query_limit 10 in
  let filter := default EmptyString (or_str query_filter (Some EmptyString)) in
  let filteredUsers := filteredUsers query_filter in
  let startIndex := (page - 1) * limit in
  let endIndex := startIndex + limit in
  let paginatedUsers := slice startIndex endIndex filteredUsers in
  {| success := true;
     data := paginatedUsers;
     page := page;
     limit := limit;
     total := Z.of_nat (length filteredUsers);
     pages := ceil_div (Z.of_nat (length filteredUsers)) limit;
     filter := or_str (Some filter) None |}.

(** [router.delete('/users/:id', ...)]: [param] is [req.params.id] and
    [next] the continuation of the router. *)
Definition delete_user (env : Env) (next : Failure.t -> M unit)
    (param : string) : M unit :=
  try_catch
    (let userId := parseInt param in
     if negb (truthy_num userId) || (default 0 userId <? 1)
     then
       res_status 400;;
       res_json
         (JObj [ ("success", JBool false);
                 ("error",
                  JObj [ ("message", JStr "Invalid user ID provided");
                         ("code", JStr "INVALID_PARAMETER");
                         ("details", JStr "User ID must be a positive integer") ]) ])
     else
       let userId := default 0 userId in
       if 100 <? userId
       then
         res_status 404;;
         res_json
           (JObj [ ("success", JBool false);
                   ("error",
                    JObj [ ("message", JStr "User not found");
                           ("code", JStr "USER_NOT_FOUND");
                           ("details",
                            JStr ("No user exists with ID: " +:+ show userId)) ]) ])
       else if userId =? 1
       then
         res_status 403;;
         res_json
           (JObj [ ("success", JBool false);
                   ("error",
                    JObj [ ("message", JStr "Cannot delete admin user");
                           ("code", JStr "FORBIDDEN_OPERATION");
                           ("details", JStr "Admin users cannot be deleted") ]) ])
       else
         res_status 200;;
         res_json
           (JObj [ ("success", JBool true);
                   ("message", JStr "User deleted successfully");
                   ("data",
                    JObj [ ("id", JNum userId);
                           ("deletedAt", JStr (now_iso env)) ]) ]))
    next.

(** *** The e-mail pattern of [POST /api/users] *)

(** [[^\s@]]. *)
Definition plain (c : ascii) : bool :=
  negb (ConfigUtils.is_space c) && negb (code c =? 64)%N.

(** The part after the [@]: some dot in it has a non-empty plain run on
    either side. *)
Fixpoint domain_part (seen : bool) (s : string) : bool :=
  match s with
  | EmptyString => false
  | String c s' =>
      (seen && (code c =? 46)%N
       && ConfigUtils.all_chars plain s' && negb (String.eqb s' EmptyString))
      || (plain c && domain_part true s')
  end.

(** The part before the [@], then the rest. *)
Fixpoint local_part (seen : bool) (s : string) : bool :=
  match s with
  | EmptyString => false
  | String c s' =>
      (seen && (code c =? 64)%N && domain_part false s')
      || (plain c && local_part true s')
  end.

(** [/^[^\s@]+@[^\s@]+\.[^\s@]+$/.test(s)]. *)
Definition emailRegex (s : string) : bool := local_part false s.

End Api.

(** ** Vocabulary of the properties *)

Module Spec.
Import Js Express ErrorHandler.

(** A failure with no explicit status: both properties absent or zero. *)
Definition no_explicit_status (err : Failure.t) : Prop :=
  truthy_num (Failure.status err) = false
  /\ truthy_num (Failure.statusCode err) = false.

(** A name the table lookup does not answer: absent, empty, or neither a
    key of the table nor a name inherited from [Object.prototype]. *)
Definition unrecognized (name : option string) : Prop :=
  table_lookup name = None.

(** The table as the specification lists it. *)
Definition listed_classifications : list (string * Z) :=
  [ ("ValidationError", 400); ("UnauthorizedError", 401);
    ("ForbiddenError", 403); ("NotFoundError", 404);
    ("MethodNotAllowedError", 405); ("ConflictError", 409);
    ("PayloadTooLargeError", 413); ("UnsupportedMediaTypeError", 415);
    ("TooManyRequestsError", 429); ("NotImplementedError", 501);
    ("BadGatewayError", 502); ("ServiceUnavailableError", 503);
    ("GatewayTimeoutError", 504) ].

(** The fault-code rule as the specification words it: connection refused,
    timeout and address not found give 503, permission denied gives 403,
    any other code gives 500. *)
Definition worded_fault_rule (code : string) : Classified :=
  if bool_decide (code ∈ ["ECONNREFUSED"; "ETIMEDOUT"; "ENOTFOUND"])
  then result 503 server
  else if bool_decide (code = "EACCES") then result 403 client
  else result 500 server.

(** A run of code units the RegExp dot matches. *)
Fixpoint dot_run (s : string) : bool :=
  match s with
  | EmptyString => true
  | String c s' => negb (line_terminator c) && dot_run s'
  end.

(** What it means for a pattern to match somewhere in a string, letters
    compared without regard to case. *)
Definition Matches (p : RegExp) (s : string) : Prop :=
  match p with
  | Lit w =>
      exists pre post, fold_case s = pre +:+ fold_case w +:+ post
  | LitAnyLit a b =>
      exists pre gap post,
        fold_case s = pre +:+ fold_case a +:+ gap +:+ fold_case b +:+ post
        /\ dot_run gap = true
  end.

(** A message that names one of the sensitive terms. *)
Definition sensitive (m : string) : Prop :=
  exists p, p ∈ sensitivePatterns /\ Matches p m.

Definition generic_client_message : string :=
  "Bad Request - Invalid request format or parameters".

Definition generic_server_message : string :=
  "Internal Server Error - An unexpected error occurred".

(** *** Concrete surroundings used to run the handlers *)

(** A logger that works. *)
Definition quiet_env : Env :=
  {| logger_throws := fun _ => false;
     logger_failure := Failure.Error "write EPIPE";
     now_iso := "2024-01-01T00:00:00.000Z";
     now_ms := 1704067200000;
     random36 := "k3j2h1g0f";
     uuid := "3b241101-e2bb-4255-8caf-4136c566a962" |}.

(** The surroundings of middleware/errorHandler as the repository binds
    them: its [logger] is what [require('../config/logger')] returns, the
    exported object, and that object has no [error] method, so every
    [logger.error(...)] throws a TypeError. *)
Definition repository_env : Env :=
  {| logger_throws := fun _ => LoggerConfig.lacks LoggerConfig.exports "error";
     logger_failure := Failure.TypeError "logger.error is not a function";
     now_iso := "2024-01-01T00:00:00.000Z";
     now_ms := 1704067200000;
     random36 := "k3j2h1g0f";
     uuid := "3b241101-e2bb-4255-8caf-4136c566a962" |}.

(** The body the handler builds in its steps 5 and 6. *)
Definition classified_response (env : Env) (err : Failure.t)
    (c : Classification) (correlationId errorId : string) : val :=
  createErrorResponse env (status c)
    (generateSafeErrorMessage (status c) err) correlationId errorId.

(** GET /health with no correlation header. *)
Definition health_request : Request :=
  {| method := "GET"; url := "/health"; originalUrl := Some "/health";
     headers := [("user-agent", "probe/1.0")];
     correlationId := None; ip := Some "127.0.0.1"; remoteAddress := None;
     id := None; startTime := None |}.

(** POST /api/users, as it reaches the error handler. *)
Definition users_request : Request :=
  {| method := "POST"; url := "/api/users"; originalUrl := Some "/api/users";
     headers := [("content-type", "application/json")];
     correlationId := Some "3b241101-e2bb-4255-8caf-4136c566a962";
     ip := Some "127.0.0.1"; remoteAddress := None;
     id := None; startTime := None |}.

(** The overall health as the specification words it: the logical AND of
    the five sub-check booleans. *)
Definition overall_health (rt : Health.Runtime) : bool :=
  Health.healthy (Health.validateProcessHealth rt)
  && Health.healthy (Health.validateMemoryUsage rt)
  && Health.healthy (Health.validateConfiguration rt)
  && Health.healthy (Health.validateEnvironment rt)
  && Health.healthy (Health.validateDependencies rt).

(** The combined failure message: name and message of each failing check,
    joined by a comma and a space. *)
Definition combined_failure_message (checks : list (string * Health.Check))
  : string :=
  "Health check failures: "
  +:+ join ", "
        (map (fun kc => kc.1 +:+ ": " +:+ Health.message kc.2)
             (filter (fun kc => Health.healthy kc.2 = false) checks)).

(** The memory threshold as the specification words it. *)
Definition worded_threshold (environment : string) : Z :=
  if String.eqb environment "production" then 150 else 100.

(** A process holding 120 MB, on a current runtime. *)
Definition process_120MB : Health.Process :=
  {| Health.rss := 125829120; Health.heapUsed := 41943040;
     Health.heapTotal := 62914560; Health.uptime := 3600; Health.pid := 4242;
     Health.version := "v18.17.0"; Health.platform := "linux";
     Health.arch := "x64"; Health.npm_package_version := Some "1.0.0" |}.

(** Production, with the configuration module loaded. *)
Definition production_runtime : Health.Runtime :=
  {| Health.config := Config.loaded "production" "127.0.0.1" 3000;
     Health.proc := process_120MB;
     Health.require_express := None |}.

(** Production, with the fallback configuration. *)
Definition fallback_runtime : Health.Runtime :=
  {| Health.config := Health.fallback_config (Some "production") None None;
     Health.proc := process_120MB;
     Health.require_express := None |}.

(** A classification whose category agrees with its status. *)
Definition category_of_status (s : Z) : Category :=
  if (400 <=? s) && (s <? 500) then client else server.

(** The failure with another message, or with none. *)
Definition with_message (err : Failure.t) (m : option string) : Failure.t :=
  Failure.mk (Failure.status err) (Failure.statusCode err) (Failure.name err)
    (Failure.constructor_name err) (Failure.code err) m (Failure.stack err).

(** The readiness of the service as the code computes it: each of the
    three checks' [ready] value is truthy. *)
Definition all_ready (rt : Health.Runtime) (versions_node : string) : bool :=
  truthy (get "ready" (Readiness.validateServerReadiness rt versions_node))
  && truthy (get "ready" (Readiness.validateConfigurationReadiness rt))
  && truthy (get "ready" (Readiness.validateDependencyReadiness rt)).

(** A string that is empty or starts with something that is not a digit. *)
Definition stops_digits (s : string) : Prop :=
  match s with
  | EmptyString => True
  | String c _ => digit c = None
  end.


(** The characters of host names: letters, digits, hyphens and dots. *)
Definition host_char (c : ascii) : bool :=
  ConfigUtils.is_alnum c || ConfigUtils.is_hyphen c || (code c =? 46)%N.


(** The largest integer below which every integer is a JavaScript number,
    [Number.MAX_SAFE_INTEGER]. *)
Definition MAX_SAFE_INTEGER : Z := 9007199254740991.

(** What the e-mail pattern of [POST /api/users] describes: three
    non-empty runs without white space or at signs, the first two joined
    by an at sign and the last two by a dot. *)
Definition email_shape (s : string) : Prop :=
  exists a b c,
    s = a +:+ "@" +:+ b +:+ "." +:+ c
    /\ a <> EmptyString /\ b <> EmptyString /\ c <> EmptyString
    /\ ConfigUtils.all_chars Api.plain a = true
    /\ ConfigUtils.all_chars Api.plain b = true
    /\ ConfigUtils.all_chars Api.plain c = true.

(** The pages of [GET /api/users] from the first to the last, for a given
    limit and filter. *)
Definition all_pages (query_limit query_filter : option string) : list (list Api.User) :=
  map (fun p => Api.data (Api.users_response (Some (show (Z.of_nat p)))
                            query_limit query_filter))
      (seq 1 (Z.to_nat (Api.pages (Api.users_response None query_limit query_filter)))).

End Spec.

(* ===================================================================== *)
(** * Part II. Properties                                                  *)
(* ===================================================================== *)

Import Js Express ErrorHandler Spec.

(** Running a handler: unfolding of the monad and of the response and
    logger primitives, leaving the handlers' own functions folded. *)
Ltac run :=
  cbv beta iota zeta delta
    [ mbind M_bind bind mret M_ret ret throw try_catch get_req get_headersSent
      logger_call res_status res_set res_json with_res with_req
      req res log calls statusCode res_headers headersSent sent ].

(** ** Classification *)

Section Classification.

Lemma truthy_num_in_range (s : Z) : 400 <= s -> truthy_num (Some s) = true.
Proof.
  intros Hs. unfold truthy_num.
  destruct (Z.eqb_spec s 0) as [-> | _]; [lia | reflexivity].
Qed.

Lemma classify_explicit (err : Failure.t) (s : Z) :
  truthy_num (or_num (Failure.status err) (Failure.statusCode err)) = true ->
  or_num (Failure.status err) (Failure.statusCode err) = Some s ->
  classifyError err
  = result s (if (400 <=? s) && (s <? 500) then client else server).
Proof.
  intros Ht Hs. unfold classifyError.
  replace (truthy_num (Failure.status err) || truthy_num (Failure.statusCode err))
    with true.
  - rewrite Hs. reflexivity.
  - symmetry. unfold or_num in Ht.
    destruct (truthy_num (Failure.status err)); [reflexivity | exact Ht].
Qed.

Lemma classify_by_name (err : Failure.t) (r : Classified) :
  no_explicit_status err ->
  table_lookup (Failure.name err) = Some r ->
  classifyError err = r.
Proof.
  intros [H1 H2] Hn. unfold classifyError. rewrite H1, H2, Hn. reflexivity.
Qed.

Lemma classify_by_constructor (err : Failure.t) (r : Classified) :
  no_explicit_status err ->
  unrecognized (Failure.name err) ->
  table_lookup (Failure.constructor_name err) = Some r ->
  classifyError err = r.
Proof.
  intros [H1 H2] Hn Hc. unfold classifyError.
  rewrite H1, H2, Hn, Hc. reflexivity.
Qed.

Lemma table_lookup_entry (n : string) (c : Classification) :
  ERROR_CLASSIFICATIONS !! n = Some c ->
  table_lookup (Some n) = Some (Entry c).
Proof.
  intros Hc. unfold table_lookup. rewrite Hc.
  destruct (String.eqb_spec n EmptyString) as [-> | _]; [| reflexivity].
  vm_compute in Hc. discriminate.
Qed.

Lemma listed_in_table (n : string) (s : Z) :
  (n, s) ∈ listed_classifications ->
  exists c, ERROR_CLASSIFICATIONS !! n = Some c /\ status c = s.
Proof.
  intros Hin. unfold listed_classifications in Hin.
  repeat (apply elem_of_cons in Hin as [Hin | Hin];
          [ inversion Hin; subst; eexists; split; vm_compute; reflexivity | ]).
  apply elem_of_nil in Hin. contradiction.
Qed.

(** C4. A failure whose explicit status lies in [400, 599] is classified
    with exactly that status, as a client error below 500 and as a server
    error from 500 on, whatever its name, fault code and message are.  The
    explicit status is the [status] property, or the [statusCode] property
    when [status] is absent or zero. *)
Theorem explicit_status_classification (err : Failure.t) (s : Z) :
  400 <= s <= 599 ->
  Failure.status err = Some s
  \/ (truthy_num (Failure.status err) = false
      /\ Failure.statusCode err = Some s) ->
  classifyError err
  = Entry {| status := s;
             category := if decide (s < 500) then client else server |}.
Proof.
  intros Hs Hfield.
  assert (Ht : truthy_num (Some s) = true) by (apply truthy_num_in_range; lia).
  assert (Hor : or_num (Failure.status err) (Failure.statusCode err) = Some s).
  { unfold or_num. destruct Hfield as [-> | [Hf ->]].
    - rewrite Ht. reflexivity.
    - rewrite Hf. reflexivity. }
  rewrite (classify_explicit err s); [| rewrite Hor; exact Ht | exact Hor].
  unfold result. do 2 f_equal.
  destruct (Z.leb_spec 400 s); [| lia].
  destruct (Z.ltb_spec s 500), (decide (s < 500)); simpl; (reflexivity || lia).
Qed.

(** When both properties are set and differ, [status] is the one used. *)
Example status_before_statusCode :
  classifyError
    (Failure.mk (Some 404) (Some 503) (Some "Error") (Some "Error") None
       (Some "gone") None)
  = result 404 client.
Proof. reflexivity. Qed.

Lemma explicit_status_classification_witness :
  classifyError
    (Failure.mk (Some 404) (Some 404) (Some "Error") (Some "Error")
       (Some "ECONNREFUSED") (Some "Route GET /nowhere not found") None)
  = Entry {| status := 404; category := client |}.
Proof.
  apply (explicit_status_classification _ 404); [lia | left; reflexivity].
Defined.

(** C5. A failure without an explicit status whose name is one the
    classification table lists is classified with the status the table
    gives for that name, whatever its message is; the same holds for the
    name of its constructor when the failure's own name is not recognized. *)
Theorem named_failure_classification (err : Failure.t) (n : string) (s : Z) :
  (n, s) ∈ listed_classifications ->
  no_explicit_status err ->
  Failure.name err = Some n
  \/ (unrecognized (Failure.name err) /\ Failure.constructor_name err = Some n) ->
  exists c, ERROR_CLASSIFICATIONS !! n = Some c
            /\ status c = s
            /\ classifyError err = Entry c.
Proof.
  intros Hin Hno Hname.
  destruct (listed_in_table n s Hin) as (c & Hc & Hs).
  exists c. split; [exact Hc |]. split; [exact Hs |].
  destruct Hname as [Hn | [Hun Hctor]].
  - apply classify_by_name; [exact Hno |].
    rewrite Hn. apply table_lookup_entry, Hc.
  - apply classify_by_constructor; [exact Hno | exact Hun |].
    rewrite Hctor. apply table_lookup_entry, Hc.
Qed.

Lemma named_failure_classification_witness :
  exists c, ERROR_CLASSIFICATIONS !! "GatewayTimeoutError" = Some c
            /\ status c = 504
            /\ classifyError
                 (Failure.mk None None (Some "GatewayTimeoutError") (Some "Error")
                    None (Some "validation of the token is forbidden") None)
               = Entry c.
Proof.
  apply (named_failure_classification _ "GatewayTimeoutError" 504).
  - unfold listed_classifications. set_solver.
  - split; reflexivity.
  - left. reflexivity.
Defined.

(** C10. A failure without an explicit status named CastError is a 404
    client error: of the two definitions of that key in the table the
    later one is in effect. *)
Theorem cast_error_is_not_found (err : Failure.t) :
  no_explicit_status err ->
  Failure.name err = Some "CastError" ->
  classifyError err = Entry {| status := 404; category := client |}
  /\ classifyError err <> Entry {| status := 400; category := client |}.
Proof.
  intros Hno Hn.
  assert (H : classifyError err = Entry {| status := 404; category := client |}).
  { apply classify_by_name; [exact Hno |]. rewrite Hn. vm_compute. reflexivity. }
  split; [exact H |]. rewrite H. intros Heq. inversion Heq.
Qed.

Lemma cast_error_is_not_found_witness :
  classifyError
    (Failure.mk None None (Some "CastError") (Some "CastError") None
       (Some "Cast to ObjectId failed") None)
  = Entry {| status := 404; category := client |}
  /\ classifyError
       (Failure.mk None None (Some "CastError") (Some "CastError") None
          (Some "Cast to ObjectId failed") None)
     <> Entry {| status := 400; category := client |}.
Proof.
  apply cast_error_is_not_found; [split; reflexivity | reflexivity].
Defined.

End Classification.

(** ** Fault codes *)

Section FaultCodes.

(** C6, as stated, fails for the address-in-use code: it is none of the
    three codes the claim sends to 503 and it is not permission-denied, yet
    it is classified 503 and not 500. *)
Lemma address_in_use_is_unavailable :
  no_explicit_status
    (Failure.mk None None (Some "Error") (Some "Error") (Some "EADDRINUSE")
       (Some "listen EADDRINUSE: address already in use") None)
  /\ unrecognized (Some "Error")
  /\ worded_fault_rule "EADDRINUSE" = result 500 server
  /\ classifyError
       (Failure.mk None None (Some "Error") (Some "Error") (Some "EADDRINUSE")
          (Some "listen EADDRINUSE: address already in use") None)
     = result 503 server
  /\ classifyError
       (Failure.mk None None (Some "Error") (Some "Error") (Some "EADDRINUSE")
          (Some "listen EADDRINUSE: address already in use") None)
     <> worded_fault_rule "EADDRINUSE".
Proof.
  repeat split; try reflexivity. vm_compute. intros H. inversion H.
Qed.

(** C6, amended. A failure without an explicit status and without a
    recognized name or constructor name that carries a non-empty fault code
    is classified 503 for address-in-use, connection-refused,
    address-not-found and timeout, 403 for permission-denied, and 500 for
    any other code. *)
Theorem fault_code_classification (err : Failure.t) (c : string) :
  no_explicit_status err ->
  unrecognized (Failure.name err) ->
  unrecognized (Failure.constructor_name err) ->
  Failure.code err = Some c ->
  c <> EmptyString ->
  classifyError err
  = if decide (c ∈ ["EADDRINUSE"; "ECONNREFUSED"; "ENOTFOUND"; "ETIMEDOUT"])
    then result 503 server
    else if decide (c = "EACCES") then result 403 client
    else result 500 server.
Proof.
  intros [H1 H2] Hn Hc Hcode Hne. unfold classifyError.
  rewrite H1, H2, Hn, Hc, Hcode. simpl.
  destruct (String.eqb_spec c EmptyString) as [-> | _]; [contradiction |]. simpl.
  rewrite bool_decide_decide.
  destruct (decide (c ∈ _)); [reflexivity |].
  destruct (String.eqb_spec c "EACCES"), (decide (c = "EACCES"));
    (reflexivity || contradiction).
Qed.

Lemma fault_code_classification_witness :
  classifyError
    (Failure.mk None None (Some "Error") (Some "Error") (Some "EACCES")
       (Some "validation of token unauthorized") None)
  = result 403 client.
Proof.
  apply (fault_code_classification _ "EACCES");
    [split; reflexivity | reflexivity | reflexivity | reflexivity | discriminate].
Defined.

End FaultCodes.

(** ** Strings and patterns *)

Section Strings.

#[local] Arguments String.append !s1 s2 : simpl nomatch.

Lemma append_nil_r (a : string) : a +:+ EmptyString = a.
Proof. induction a as [| x a IH]; simpl; [reflexivity | f_equal; exact IH]. Qed.

Lemma starts_with_spec (n h : string) :
  starts_with n h = true <-> exists post, h = n +:+ post.
Proof.
  revert h. induction n as [| a n IH]; intros h; simpl.
  - split; [intros _; exists h; reflexivity | reflexivity].
  - destruct h as [| b h].
    + split; [discriminate | intros [post H]; discriminate].
    + rewrite andb_true_iff, IH. split.
      * intros [Hab [post ->]]. apply Ascii.eqb_eq in Hab as ->.
        exists post. reflexivity.
      * intros [post H]. injection H as -> ->.
        split; [apply Ascii.eqb_refl | exists post; reflexivity].
Qed.

Lemma includes_spec (h n : string) :
  includes h n = true <-> exists pre post, h = pre +:+ n +:+ post.
Proof.
  induction h as [| c h IH].
  - cbn [includes]. rewrite orb_false_r, starts_with_spec. split.
    + intros [post H]. exists EmptyString, post. exact H.
    + intros (pre & post & H). destruct pre; [| discriminate].
      exists post. exact H.
  - cbn [includes]. rewrite orb_true_iff, starts_with_spec, IH. split.
    + intros [[post H] | (pre & post & H)].
      * exists EmptyString, post. exact H.
      * exists (String c pre), post. simpl. rewrite H. reflexivity.
    + intros (pre & post & H). destruct pre as [| x pre].
      * left. exists post. exact H.
      * right. injection H as -> H. exists pre, post. exact H.
Qed.

Lemma drop_append (a s : string) : drop (String.length a) (a +:+ s) = s.
Proof. induction a as [| x a IH]; simpl; [destruct s; reflexivity | exact IH]. Qed.

Lemma after_dots_spec (b s : string) :
  after_dots b s = true
  <-> exists gap post, s = gap +:+ b +:+ post /\ dot_run gap = true.
Proof.
  induction s as [| c s IH].
  - cbn [after_dots]. rewrite orb_false_r, starts_with_spec. split.
    + intros [post H]. exists EmptyString, post. split; [exact H | reflexivity].
    + intros (gap & post & H & _). destruct gap; [| discriminate].
      exists post. exact H.
  - cbn [after_dots]. rewrite orb_true_iff, andb_true_iff, starts_with_spec, IH.
    split.
    + intros [[post H] | [Hc (gap & post & H & Hg)]].
      * exists EmptyString, post. split; [exact H | reflexivity].
      * exists (String c gap), post. split.
        -- simpl. rewrite H. reflexivity.
        -- simpl. rewrite Hc, Hg. reflexivity.
    + intros (gap & post & H & Hg). destruct gap as [| x gap].
      * left. exists post. exact H.
      * right. injection H as -> H. simpl in Hg.
        apply andb_true_iff in Hg as [Hx Hg].
        split; [exact Hx | exists gap, post; split; assumption].
Qed.

Lemma word_any_word_spec (a b s : string) :
  word_any_word a b s = true
  <-> exists pre gap post,
        s = pre +:+ a +:+ gap +:+ b +:+ post /\ dot_run gap = true.
Proof.
  assert (Hhead : forall s,
    starts_with a s && after_dots b (drop (String.length a) s) = true
    <-> exists gap post, s = a +:+ gap +:+ b +:+ post /\ dot_run gap = true).
  { intros s0. rewrite andb_true_iff, starts_with_spec. split.
    - intros [[rest ->] H]. rewrite drop_append in H.
      apply after_dots_spec in H as (gap & post & -> & Hg).
      exists gap, post. split; [reflexivity | exact Hg].
    - intros (gap & post & -> & Hg). split.
      + eexists. reflexivity.
      + rewrite drop_append. apply after_dots_spec.
        exists gap, post. split; [reflexivity | exact Hg]. }
  induction s as [| c s IH].
  - cbn [word_any_word]. rewrite orb_false_r, Hhead. split.
    + intros (gap & post & H & Hg). exists EmptyString, gap, post. split; assumption.
    + intros (pre & gap & post & H & Hg). destruct pre; [| discriminate].
      exists gap, post. split; assumption.
  - cbn [word_any_word]. rewrite orb_true_iff, Hhead, IH. split.
    + intros [(gap & post & H & Hg) | (pre & gap & post & H & Hg)].
      * exists EmptyString, gap, post. split; assumption.
      * exists (String c pre), gap, post. split; [| exact Hg].
        simpl. rewrite H. reflexivity.
    + intros (pre & gap & post & H & Hg). destruct pre as [| x pre].
      * left. exists gap, post. split; assumption.
      * right. injection H as -> H. exists pre, gap, post. split; assumption.
Qed.

(** The executable test agrees with the declarative reading of a match. *)
Lemma test_spec (p : RegExp) (s : string) : test p s = true <-> Matches p s.
Proof.
  destruct p as [w | a b]; simpl.
  - apply includes_spec.
  - apply word_any_word_spec.
Qed.

Lemma sensitive_spec (m : string) :
  existsb (fun pattern => test pattern m) sensitivePatterns = true
  <-> sensitive m.
Proof.
  rewrite existsb_exists. unfold sensitive. split.
  - intros (p & Hin & Ht). exists p. split.
    + apply list_elem_of_In, Hin.
    + apply test_spec, Ht.
  - intros (p & Hin & Hm). exists p. split.
    + apply list_elem_of_In, Hin.
    + apply test_spec, Hm.
Qed.

End Strings.

(** ** Client-facing messages *)

Section SafeMessages.

Lemma not_sensitive_spec (m : string) :
  existsb (fun pattern => test pattern m) sensitivePatterns = false
  <-> ~ sensitive m.
Proof.
  rewrite <- sensitive_spec.
  destruct (existsb _ _); split; intros H; try reflexivity; try discriminate.
  exfalso. apply H. reflexivity.
Qed.

(** C2, as stated, fails at status 400: the message of a validation
    failure is short and names no sensitive term, yet the client receives
    the table's entry and not the message behind "Bad Request - ". *)
Lemma known_status_ignores_message :
  classifyError (ErrorFactory_validation "Name is required") = result 400 client
  /\ (String.length "Name is required" < 200)%nat
  /\ ~ sensitive "Name is required"
  /\ generateSafeErrorMessage 400 (ErrorFactory_validation "Name is required")
     = "Bad Request - Invalid request format or parameters"
  /\ generateSafeErrorMessage 400 (ErrorFactory_validation "Name is required")
     <> "Bad Request - " +:+ "Name is required".
Proof.
  split; [reflexivity |]. split; [vm_compute; lia |].
  split; [apply not_sensitive_spec; vm_compute; reflexivity |].
  split; [reflexivity |]. vm_compute. discriminate.
Qed.

(** C2, amended. For a 4xx status the client-facing message is the safe
    table's entry whenever the table has one for that status.  Only for a
    4xx status without an entry does the original message count: when it is
    non-empty, under 200 characters and names no sensitive term, the
    message is the original behind "Bad Request - "; otherwise it is the
    generic bad-request text. *)
Theorem client_safe_message (s : Z) (err : Failure.t) :
  400 <= s < 500 ->
  (forall entry, SAFE_ERROR_MESSAGES !! s = Some entry ->
     generateSafeErrorMessage s err = entry)
  /\ (SAFE_ERROR_MESSAGES !! s = None ->
      forall m, Failure.message err = Some m ->
        (m <> EmptyString /\ (String.length m < 200)%nat /\ ~ sensitive m ->
         generateSafeErrorMessage s err = "Bad Request - " +:+ m)
        /\ (m = EmptyString \/ (200 <= String.length m)%nat \/ sensitive m ->
            generateSafeErrorMessage s err = generic_client_message))
  /\ (SAFE_ERROR_MESSAGES !! s = None ->
      Failure.message err = None ->
      generateSafeErrorMessage s err = generic_client_message).
Proof.
  intros Hs.
  assert (H4 : (400 <=? s) && (s <? 500) = true).
  { apply andb_true_iff. split; [apply Z.leb_le | apply Z.ltb_lt]; lia. }
  split; [| split].
  - intros entry He. unfold generateSafeErrorMessage. rewrite He. reflexivity.
  - intros Hnone m Hm. unfold generateSafeErrorMessage.
    rewrite Hnone, H4, Hm. cbn [truthy_str default from_option andb].
    unfold Datatypes.id.
    split.
    + intros (Hne & Hlen & Hsens).
      destruct (String.eqb_spec m EmptyString) as [-> | _]; [contradiction |].
      cbn [negb]. apply not_sensitive_spec in Hsens. rewrite Hsens.
      replace (String.length m <? 200)%nat with true
        by (symmetry; apply Nat.ltb_lt; exact Hlen).
      reflexivity.
    + intros Hbad.
      destruct (String.eqb_spec m EmptyString) as [-> | Hne]; [reflexivity |].
      cbn [negb].
      destruct Hbad as [Hempty | [Hlong | Hsens]].
      * contradiction.
      * replace (String.length m <? 200)%nat with false
          by (symmetry; apply Nat.ltb_ge; exact Hlong).
        rewrite andb_false_r. reflexivity.
      * apply sensitive_spec in Hsens. rewrite Hsens. reflexivity.
  - intros Hnone Hm. unfold generateSafeErrorMessage.
    rewrite Hnone, H4, Hm. reflexivity.
Qed.

Lemma client_safe_message_witness :
  generateSafeErrorMessage 422 (Failure.Error "Name is required")
  = "Bad Request - " +:+ "Name is required".
Proof.
  destruct (client_safe_message 422 (Failure.Error "Name is required"))
    as (_ & H & _); [lia |].
  apply (H eq_refl "Name is required" eq_refl).
  split; [discriminate |]. split; [vm_compute; lia |].
  apply not_sensitive_spec. vm_compute. reflexivity.
Defined.

(** From 500 on the message is a function of the status alone. *)
Lemma server_safe_message (s : Z) (err : Failure.t) :
  500 <= s ->
  generateSafeErrorMessage s err
  = default generic_server_message (SAFE_ERROR_MESSAGES !! s).
Proof.
  intros Hs. unfold generateSafeErrorMessage.
  destruct (SAFE_ERROR_MESSAGES !! s); [reflexivity |].
  replace (s <? 500) with false by (symmetry; apply Z.ltb_ge; lia).
  rewrite andb_false_r. reflexivity.
Qed.

End SafeMessages.

(** ** The error handler *)

Section HandlerRuns.
Context (env : Env).

Lemma createErrorResponse_errorId (s : Z) (m cid eid : string) :
  has_field "errorId" (createErrorResponse env s m cid eid) = (500 <=? s).
Proof.
  unfold createErrorResponse, has_field.
  destruct (500 <=? s); [reflexivity |].
  destruct (s =? 429), (s =? 413); reflexivity.
Qed.

Lemma createErrorResponse_no_stack (s : Z) (m cid eid : string) :
  has_field "stack" (createErrorResponse env s m cid eid) = false.
Proof.
  unfold createErrorResponse, has_field.
  destruct (500 <=? s), (s =? 429), (s =? 413); reflexivity.
Qed.

Lemma createErrorResponse_server (s : Z) (m cid eid : string) :
  500 <= s ->
  createErrorResponse env s m cid eid
  = JObj [ ("error", JBool true);
           ("status", JNum s);
           ("message", JStr m);
           ("timestamp", JStr (now_iso env));
           ("correlationId", JStr (if String.eqb cid EmptyString then "unknown" else cid));
           ("errorId", JStr eid) ].
Proof.
  intros Hs. unfold createErrorResponse.
  replace (500 <=? s) with true by (symmetry; apply Z.leb_le; lia).
  replace (s =? 429) with false by (symmetry; apply Z.eqb_neq; lia).
  replace (s =? 413) with false by (symmetry; apply Z.eqb_neq; lia).
  reflexivity.
Qed.

(** The [try] block when nothing in it throws: the classified body is
    written under the classified status. *)
Lemma handle_error_completes (err : Failure.t) (c : Classification) (w : World) :
  classifyError err = Entry c ->
  logger_throws env (calls w) = false ->
  logger_throws env (S (calls w)) = false ->
  headersSent (res w) = false ->
  100 <= status c <= 999 ->
  exists w',
    handle_error env err w = (Ret tt, w')
    /\ sent (res w')
       = sent (res w)
         ++ [(status c,
              classified_response env err c (context_correlationId (req w))
                (ErrorHandler.errorId (createErrorLogEntry env err (req w) c)))]
    /\ headersSent (res w') = true.
Proof.
  intros Hc Hl0 Hl1 Hsent Hrange.
  destruct w as [rq [sc hs hsent snt] lg n].
  cbn [calls res req headersSent sent] in *. subst hsent.
  unfold handle_error. rewrite Hc. run.
  rewrite Hl0. run.
  replace (status c <? 100) with false by (symmetry; apply Z.ltb_ge; lia).
  replace (999 <? status c) with false by (symmetry; apply Z.ltb_ge; lia).
  cbn [orb]. run. rewrite Hl1. run.
  eexists. split; [reflexivity |]. split; reflexivity.
Qed.

(** C7. The response the handler sends for a classified failure: when its
    two logger calls go through, no headers were sent before and the
    status is one a response can carry, the handler returns after writing
    exactly one body, under the classified status.  That body has an
    [errorId] exactly when the status is 500 or more (so never for a 4xx
    status) and never a [stack]; from 500 on it consists of the six fixed
    fields, and its message is the safe table's entry for the status (the
    generic server text where the table has none): nothing of the
    failure's own message or stack goes into it. *)
Theorem error_response_shape (err : Failure.t) (c : Classification) (w : World) :
  classifyError err = Entry c ->
  logger_throws env (calls w) = false ->
  logger_throws env (S (calls w)) = false ->
  headersSent (res w) = false ->
  100 <= status c <= 999 ->
  exists body w',
    centralizedErrorHandler env err w = (Ret tt, w')
    /\ sent (res w') = sent (res w) ++ [(status c, body)]
    /\ (has_field "errorId" body = true <-> 500 <= status c)
    /\ (400 <= status c < 500 -> has_field "errorId" body = false)
    /\ has_field "stack" body = false
    /\ (500 <= status c ->
        body
        = JObj [ ("error", JBool true);
                 ("status", JNum (status c));
                 ("message",
                  JStr (default generic_server_message
                          (SAFE_ERROR_MESSAGES !! status c)));
                 ("timestamp", JStr (now_iso env));
                 ("correlationId", JStr (context_correlationId (req w)));
                 ("errorId",
                  JStr ("err_" +:+ show (now_ms env) +:+ "_" +:+ random36 env)) ]).
Proof.
  intros Hc Hl0 Hl1 Hsent Hrange.
  destruct (handle_error_completes err c w Hc Hl0 Hl1 Hsent Hrange)
    as (w' & Hrun & Hbody & _).
  eexists _, w'. split.
  { unfold centralizedErrorHandler, try_catch. rewrite Hrun. reflexivity. }
  split; [exact Hbody |]. unfold classified_response.
  split; [rewrite createErrorResponse_errorId; apply Z.leb_le |].
  split; [intros H4; rewrite createErrorResponse_errorId; apply Z.leb_gt; lia |].
  split; [apply createErrorResponse_no_stack |].
  intros H5.
  rewrite (createErrorResponse_server _ _ _ _ H5), (server_safe_message _ _ H5).
  assert (String.eqb (context_correlationId (req w)) EmptyString = false) as ->.
  { unfold context_correlationId, or_str.
    repeat match goal with
           | |- context [truthy_str ?o] =>
               let Ht := fresh "Ht" in destruct (truthy_str o) eqn:Ht
           end;
      try reflexivity;
      match goal with
      | Ht : truthy_str ?o = true |- _ =>
          destruct o as [x |]; [| discriminate];
          cbn in Ht |- *; unfold Datatypes.id;
          destruct (String.eqb x EmptyString); [discriminate | reflexivity]
      end. }
  reflexivity.
Qed.

(** The [catch] block when its own logger call goes through: the
    secondary failure is swallowed, and the minimal body is written exactly
    when no headers have been sent. *)
Lemma fallback_completes (err handlerError : Failure.t) (w : World) :
  logger_throws env (calls w) = false ->
  exists w',
    handle_handler_error env err handlerError w = (Ret tt, w')
    /\ sent (res w')
       = sent (res w)
         ++ (if headersSent (res w) then [] else [(500, minimal_response env)]).
Proof.
  intros Hl. destruct w as [rq [sc hs hsent snt] lg n].
  cbn [calls res req headersSent sent] in *.
  unfold handle_handler_error. run. rewrite Hl. run.
  destruct hsent; cbn [negb]; run.
  - eexists. split; [reflexivity |]. cbn [sent]. rewrite app_nil_r. reflexivity.
  - cbn [Z.ltb Z.compare Pos.compare Pos.compare_cont orb]. run.
    eexists. split; reflexivity.
Qed.

(** Whatever happens, what the handler writes is nothing, or the classified
    body, or the minimal body; and nothing once headers have been sent. *)
Lemma handler_sent_bodies (err : Failure.t) (w w' : World) (o : Outcome unit) :
  centralizedErrorHandler env err w = (o, w') ->
  exists extra,
    sent (res w') = sent (res w) ++ extra
    /\ (extra = []
        \/ extra = [(500, minimal_response env)]
        \/ exists c,
             classifyError err = Entry c
             /\ extra
                = [(status c,
                    classified_response env err c
                      (context_correlationId (req w))
                      (ErrorHandler.errorId
                         (createErrorLogEntry env err (req w) c)))])
    /\ (headersSent (res w) = true -> extra = []).
Proof.
  destruct w as [rq [sc hs hsent snt] lg n].
  unfold centralizedErrorHandler, handle_error, handle_handler_error.
  destruct (classifyError err) as [c | key]; run;
    repeat match goal with
           | |- context [if ?b then _ else _] => destruct b eqn:?; run
           end;
    intros Hrun; inversion Hrun; subst; cbn [sent];
    first
      [ exists []; rewrite app_nil_r;
        split; [reflexivity | split; [left; reflexivity | intros; reflexivity]]
      | eexists [_]; split; [reflexivity |];
        split; [| discriminate];
        first [ right; left; reflexivity
              | right; right; eexists; split; reflexivity ] ].
Qed.

(** The response is sent at most once. *)
Lemma handler_sends_at_most_once (err : Failure.t) (w w' : World)
    (o : Outcome unit) :
  centralizedErrorHandler env err w = (o, w') ->
  (length (sent (res w')) <= S (length (sent (res w))))%nat.
Proof.
  intros Hrun.
  destruct (handler_sent_bodies err w w' o Hrun)
    as (extra & -> & [-> | [-> | (c & _ & ->)]] & _);
    rewrite length_app; cbn; lia.
Qed.

(** With a logger whose calls all throw, the handler lets the throw of the
    [catch] block's logger call out and writes nothing. *)
Lemma handler_escapes (err : Failure.t) (w : World) :
  (forall n, logger_throws env n = true) ->
  exists w',
    centralizedErrorHandler env err w = (Throw (logger_failure env), w')
    /\ res w' = res w.
Proof.
  intros Hall. destruct w as [rq rs lg n].
  unfold centralizedErrorHandler, handle_error, handle_handler_error.
  destruct (classifyError err) as [c | key]; run; rewrite !Hall; run;
    rewrite ?Hall; eexists; split; reflexivity.
Qed.

End HandlerRuns.

Lemma error_response_shape_witness :
  exists body w',
    centralizedErrorHandler quiet_env
      (ErrorFactory_internal "connection to database lost") (start users_request)
    = (Ret tt, w')
    /\ sent (res w') = sent (res (start users_request)) ++ [(500, body)]
    /\ (has_field "errorId" body = true <-> 500 <= 500)
    /\ (400 <= 500 < 500 -> has_field "errorId" body = false)
    /\ has_field "stack" body = false
    /\ (500 <= 500 ->
        body
        = JObj [ ("error", JBool true);
                 ("status", JNum 500);
                 ("message",
                  JStr (default generic_server_message
                          (SAFE_ERROR_MESSAGES !! 500)));
                 ("timestamp", JStr (now_iso quiet_env));
                 ("correlationId",
                  JStr (context_correlationId (req (start users_request))));
                 ("errorId",
                  JStr ("err_" +:+ show (now_ms quiet_env) +:+ "_"
                        +:+ random36 quiet_env)) ]).
Proof.
  apply (error_response_shape quiet_env
           (ErrorFactory_internal "connection to database lost")
           {| status := 500; category := server |} (start users_request));
    [reflexivity | reflexivity | reflexivity | reflexivity | cbn; lia].
Defined.

(** The object middleware/errorHandler binds to [logger] has no [error]
    method; the logger routes/health unwraps from it has. *)
Lemma repository_logger_bindings :
  LoggerConfig.lacks LoggerConfig.exports "error" = true
  /\ LoggerConfig.lacks LoggerConfig.exports "info" = true
  /\ LoggerConfig.lacks LoggerConfig.unwrapped "error" = false
  /\ LoggerConfig.lacks LoggerConfig.unwrapped "http" = false.
Proof. repeat split; reflexivity. Qed.

(** C8 with the logger as the repository binds it: whatever the failure
    and the state of the response, the [try] block throws (at its logger
    call, or before it), the [catch] block calls the logger again before it
    looks at [headersSent], and that TypeError leaves the handler; no body
    is written. *)
Theorem handler_escapes_with_repository_logger (err : Failure.t) (w : World) :
  exists w',
    centralizedErrorHandler repository_env err w
    = (Throw (Failure.TypeError "logger.error is not a function"), w')
    /\ sent (res w') = sent (res w)
    /\ headersSent (res w') = headersSent (res w).
Proof.
  destruct (handler_escapes repository_env err w) as (w' & Hrun & Hres).
  { intros n. reflexivity. }
  exists w'. split; [exact Hrun |]. rewrite Hres. split; reflexivity.
Qed.

Section HandlerOutcome.
Context (env : Env).

(** The only way out of the handler other than a normal return: the [try]
    block threw and the logger call of the [catch] block threw as well. *)
Lemma handler_outcome (err : Failure.t) (w w' : World) (o : Outcome unit) :
  centralizedErrorHandler env err w = (o, w') ->
  o = Ret tt
  \/ exists e w1,
       handle_error env err w = (Throw e, w1)
       /\ logger_throws env (calls w1) = true
       /\ o = Throw (logger_failure env).
Proof.
  unfold centralizedErrorHandler, try_catch.
  destruct (handle_error env err w) as [[[] | e] w1] eqn:Htry.
  - intros H. inversion H. left. reflexivity.
  - destruct (logger_throws env (calls w1)) eqn:Hl.
    + intros H. right. exists e, w1. split; [reflexivity |]. split; [exact Hl |].
      unfold handle_handler_error, mbind, M_bind, bind, logger_call in H.
      rewrite Hl in H. inversion H. reflexivity.
    + destruct (fallback_completes env err e w1 Hl) as (w2 & Hrun & _).
      rewrite Hrun. intros H. inversion H. left. reflexivity.
Qed.

End HandlerOutcome.

(** ** Health *)

Import Health.

Section HealthReport.
Context (env : Env).

Lemma failed_checks_empty (checks : list (string * Check)) :
  (0 <? length (filter (fun kc => healthy kc.2 = false) checks))%nat
  = negb (forallb (fun kc => healthy kc.2) checks).
Proof.
  induction checks as [| [k c] checks IH]; [reflexivity |].
  rewrite filter_cons. cbn [forallb]. case_decide as Hd; cbn [snd] in Hd |- *.
  - rewrite Hd. reflexivity.
  - destruct (healthy c); [exact IH | contradiction].
Qed.

(** The aggregation returns the table when every check is healthy and
    throws the combined message otherwise. *)
Lemma report_spec (checks : list (string * Check)) (w : World) :
  report checks w
  = if forallb (fun kc => healthy kc.2) checks
    then (Ret checks, w)
    else (Throw (Failure.Error (combined_failure_message checks)), w).
Proof.
  unfold report. rewrite failed_checks_empty.
  destruct (forallb _ checks); reflexivity.
Qed.

Lemma overall_health_forallb (rt : Runtime) :
  forallb (fun kc => healthy kc.2) (run_checks rt) = overall_health rt.
Proof.
  unfold run_checks, overall_health. cbn [forallb snd].
  rewrite andb_true_r, !andb_assoc. reflexivity.
Qed.

(** C1. The report of GET /health is healthy exactly when the five
    sub-checks are all healthy: then the handler answers 200 with the
    detailed body, and otherwise 503 with the combined failure message
    (name and message of each failing check, joined by commas). *)
Theorem health_report_aggregation (rt : Runtime) (w : World) :
  logger_throws env (calls w) = false ->
  headersSent (res w) = false ->
  exists body w',
    get_health env rt w = (Ret tt, w')
    /\ sent (res w')
       = sent (res w) ++ [(if overall_health rt then 200 else 503, body)]
    /\ if overall_health rt
       then get "status" body = JStr "ok"
            /\ keys body
               = ["status"; "timestamp"; "service"; "version"; "uptime";
                  "environment"; "server"; "process"; "correlationId"]
       else get "status" body = JStr "error"
            /\ get "message" (get "error" body)
               = JStr (combined_failure_message (run_checks rt)).
Proof.
  intros Hl Hsent. destruct w as [rq [sc hs hsent snt] lg n].
  cbn [calls res req headersSent sent] in *. subst hsent.
  unfold get_health, performHealthChecks. run.
  rewrite report_spec, overall_health_forallb.
  destruct (overall_health rt); run; rewrite Hl; run;
    cbn [Z.ltb Z.compare Pos.compare Pos.compare_cont orb]; run;
    eexists _, _; (split; [reflexivity |]); (split; [reflexivity |]);
    split; reflexivity.
Qed.

(** The export of the configuration module has no [NODE_ENV] property, so
    the health module never sees production through it. *)
Lemma loaded_config_is_never_production
    (server app logging middleware monitoring cluster utils : val) :
  is_production
    (Config.exports server app logging middleware monitoring cluster utils)
  = false.
Proof. reflexivity. Qed.

(** The memory check against whatever [config.NODE_ENV] holds. *)
Lemma memory_check_threshold (rt : Runtime) :
  healthy (validateMemoryUsage rt)
  = (round_MB (rss (proc rt))
     <? (if is_production (config rt) then 150 else 100)).
Proof. reflexivity. Qed.

(** With the fallback configuration the threshold follows the
    environment, as worded. *)
Lemma memory_check_fallback (NODE_ENV HOST PORT : option string) (p : Process)
    (x : option string) :
  healthy (validateMemoryUsage
             {| config := fallback_config NODE_ENV HOST PORT; proc := p;
                require_express := x |})
  = (round_MB (rss p)
     <? worded_threshold (default "development" (or_str NODE_ENV (Some "development")))).
Proof.
  rewrite memory_check_threshold. cbn [config proc]. unfold worded_threshold.
  unfold fallback_config, is_production, get. cbn [assoc String.eqb Ascii.eqb Bool.eqb default from_option].
  reflexivity.
Qed.

(** A breach of the memory threshold puts [memory] first in the combined
    message: the process check before it never fails. *)
Lemma memory_breach_listed (rt : Runtime) :
  healthy (validateMemoryUsage rt) = false ->
  overall_health rt = false
  /\ exists rest,
       combined_failure_message (run_checks rt)
       = "Health check failures: " +:+ "memory: "
         +:+ message (validateMemoryUsage rt) +:+ rest.
Proof.
  intros Hm. split.
  - unfold overall_health. rewrite Hm. cbn [andb healthy validateProcessHealth].
    reflexivity.
  - unfold combined_failure_message, run_checks.
    rewrite filter_cons, decide_False by (cbn; discriminate).
    rewrite filter_cons, decide_True by (cbn; exact Hm).
    cbn [map fst snd]. unfold join.
    destruct (map _ (filter _ _)) as [| x xs] eqn:Hrest.
    + exists EmptyString. rewrite append_nil_r. reflexivity.
    + exists (", " +:+ String.concat ", " (x :: xs)). reflexivity.
Qed.

End HealthReport.

Lemma health_report_aggregation_witness :
  exists body w',
    get_health quiet_env fallback_runtime (start health_request) = (Ret tt, w')
    /\ sent (res w')
       = sent (res (start health_request))
         ++ [(if overall_health fallback_runtime then 200 else 503, body)]
    /\ if overall_health fallback_runtime
       then get "status" body = JStr "ok"
            /\ keys body
               = ["status"; "timestamp"; "service"; "version"; "uptime";
                  "environment"; "server"; "process"; "correlationId"]
       else get "status" body = JStr "error"
            /\ get "message" (get "error" body)
               = JStr (combined_failure_message (run_checks fallback_runtime)).
Proof.
  apply (health_report_aggregation quiet_env fallback_runtime
           (start health_request)); reflexivity.
Defined.

(** C3 in production with the configuration module loaded: the
    environment is production and the process holds 120 MB, below the 150 MB
    the claim gives for production, yet the check compares against 100 MB
    and fails, and GET /health answers 503. *)
Theorem production_memory_threshold_not_applied :
  get "env" (get "app" (config production_runtime)) = JStr "production"
  /\ get "NODE_ENV" (config production_runtime) = JUndefined
  /\ round_MB (rss (proc production_runtime)) = 120
  /\ 120 < worded_threshold "production"
  /\ healthy (validateMemoryUsage production_runtime) = false
  /\ message (validateMemoryUsage production_runtime)
     = "Memory usage exceeded threshold: 120MB > 100MB"
  /\ exists body w',
       get_health quiet_env production_runtime (start health_request)
       = (Ret tt, w')
       /\ sent (res w') = [(503, body)]
       /\ get "message" (get "error" body)
          = JStr ("Health check failures: "
                  +:+ "memory: Memory usage exceeded threshold: 120MB > 100MB, "
                  +:+ "configuration: Missing required configuration: "
                  +:+ "NODE_ENV, HOST, PORT").
Proof.
  repeat (split; [vm_compute; reflexivity |]).
  eexists _, _. split; [vm_compute; reflexivity |]. split; reflexivity.
Qed.

(** ** Correlation identifiers *)

(** The middleware puts its identifier on the request and in the header
    before it logs, so both are in place however its logger calls end. *)
Lemma middleware_assigns_identifier (env : Env) (w w' : World)
    (o : Outcome unit) :
  headersSent (res w) = false ->
  LoggerMiddleware.correlationIdMiddleware env w = (o, w') ->
  correlationId (req w') = Some (uuid env)
  /\ header "X-Correlation-ID" (res_headers (res w')) = Some (uuid env).
Proof.
  destruct w as [rq [sc hs hsent snt] lg n]. cbn [res headersSent].
  intros ->. unfold LoggerMiddleware.correlationIdMiddleware,
    LoggerMiddleware.generateCorrelationId.
  run.
  destruct (logger_throws env n); [destruct (logger_throws env (S n)) |];
    intros H; inversion H; subst; split; reflexivity.
Qed.

(** The identifier in the body of GET /health is the route's own. *)
Lemma health_body_identifier (env : Env) (rt : Runtime) (w : World) :
  logger_throws env (calls w) = false ->
  headersSent (res w) = false ->
  exists code body w',
    get_health env rt w = (Ret tt, w')
    /\ sent (res w') = sent (res w) ++ [(code, body)]
    /\ get "correlationId" body
       = JStr (route_correlationId env "health" (req w)).
Proof.
  intros Hl Hsent. destruct w as [rq [sc hs hsent snt] lg n].
  cbn [calls res req headersSent sent] in *. subst hsent.
  unfold get_health, performHealthChecks.
  run. rewrite report_spec.
  destruct (forallb _ _); run; rewrite Hl; run;
    cbn [Z.ltb Z.compare Pos.compare Pos.compare_cont orb]; run;
    eexists _, _, _; (split; [reflexivity |]); split; reflexivity.
Qed.

(** C9 on GET /health: the middleware assigns the request its identifier
    and echoes it in the X-Correlation-ID header; the route, run on the
    state the middleware leaves, makes up an identifier of its own for its
    log line and its body, so one request carries two. *)
Theorem health_route_makes_its_own_identifier :
  exists w1 w2 body,
    LoggerMiddleware.correlationIdMiddleware quiet_env (start health_request)
    = (Ret tt, w1)
    /\ correlationId (req w1) = Some (uuid quiet_env)
    /\ get_health quiet_env fallback_runtime w1 = (Ret tt, w2)
    /\ correlationId (req w2) = Some (uuid quiet_env)
    /\ header "X-Correlation-ID" (res_headers (res w2)) = Some (uuid quiet_env)
    /\ sent (res w2) = [(200, body)]
    /\ get "correlationId" body = JStr "health-1704067200000-k3j2h1g0f"
    /\ map (fun line => get "correlationId" (JObj (meta line))) (log w2)
       = [ JStr (uuid quiet_env); JStr "health-1704067200000-k3j2h1g0f" ]
    /\ uuid quiet_env <> "health-1704067200000-k3j2h1g0f".
Proof.
  eexists _, _, _. split; [vm_compute; reflexivity |].
  split; [reflexivity |]. split; [vm_compute; reflexivity |].
  repeat (split; [reflexivity |]). discriminate.
Qed.

(** The identifier of the route is computed from the request's headers and
    the clock alone: the one the middleware put on the request plays no part. *)
Lemma route_identifier_ignores_assigned (env : Env) (prefix : string)
    (r : Request) (assigned : option string) :
  route_correlationId env prefix
    {| method := method r; url := url r; originalUrl := originalUrl r;
       headers := headers r; correlationId := assigned; ip := ip r;
       remoteAddress := remoteAddress r; id := id r; startTime := startTime r |}
  = route_correlationId env prefix r.
Proof. reflexivity. Qed.

(* ===================================================================== *)
(** * Part III. Further properties of the code                             *)
(* ===================================================================== *)

Import Factories.

(** ** The classifier as a whole *)

Section ClassifierInvariants.

Lemma table_lookup_Entry (key : option string) (c : Classification) :
  table_lookup key = Some (Entry c) ->
  exists n, ERROR_CLASSIFICATIONS !! n = Some c.
Proof.
  unfold table_lookup. destruct key as [k |]; [| discriminate].
  destruct (String.eqb k EmptyString); [discriminate |].
  destruct (ERROR_CLASSIFICATIONS !! k) as [c' |] eqn:Hk.
  - intros H. injection H as <-. exists k. exact Hk.
  - destruct (bool_decide _); discriminate.
Qed.

(** Every entry of the classification table is a client error with a 4xx
    status or a server error with a 5xx status, and its status has a safe
    message. *)
Lemma table_entries_sound :
  map_Forall
    (fun _ c => category c = category_of_status (status c)
                /\ 400 <= status c <= 504
                /\ is_Some (SAFE_ERROR_MESSAGES !! status c))
    ERROR_CLASSIFICATIONS.
Proof.
  apply map_Forall_to_list.
  set (l := map_to_list ERROR_CLASSIFICATIONS). vm_compute in l. subst l.
  repeat (apply Forall_cons; split;
          [ split; [reflexivity | split; [cbn; lia | eexists; vm_compute; reflexivity]] | ]).
  apply Forall_nil. exact I.
Qed.

(** What a failure without an explicit status can be classified as. *)
Lemma implicit_classification_sound (err : Failure.t) (c : Classification) :
  no_explicit_status err ->
  classifyError err = Entry c ->
  category c = category_of_status (status c)
  /\ 400 <= status c <= 504
  /\ is_Some (SAFE_ERROR_MESSAGES !! status c).
Proof.
  intros [H1 H2]. unfold classifyError. rewrite H1, H2. cbn [orb].
  destruct (table_lookup (Failure.name err)) as [r |] eqn:Hn.
  { intros ->. apply table_lookup_Entry in Hn as (n & Hn).
    exact (table_entries_sound n c Hn). }
  destruct (table_lookup (Failure.constructor_name err)) as [r |] eqn:Hc.
  { intros ->. apply table_lookup_Entry in Hc as (n & Hc).
    exact (table_entries_sound n c Hc). }
  unfold result.
  repeat match goal with
         | |- context [if ?b then _ else _] => destruct b
         end;
    intros Hr; injection Hr as <-;
    (split; [reflexivity | split; [cbn; lia | eexists; vm_compute; reflexivity]]).
Qed.

(** X1. Whatever path classifies a failure, the category of the result
    agrees with its status: client exactly for a status in [400, 500),
    server for every other status. *)
Theorem classification_category_agrees (err : Failure.t) (c : Classification) :
  classifyError err = Entry c ->
  (category c = client <-> 400 <= status c < 500)
  /\ (category c = server <-> ~ 400 <= status c < 500).
Proof.
  intros Hc.
  assert (Hcat : category c = category_of_status (status c)).
  { destruct (truthy_num (Failure.status err) || truthy_num (Failure.statusCode err))
      eqn:Hexp.
    - unfold classifyError in Hc. rewrite Hexp in Hc.
      injection Hc as <-. reflexivity.
    - apply orb_false_iff in Hexp.
      exact (proj1 (implicit_classification_sound err c Hexp Hc)). }
  rewrite Hcat. unfold category_of_status.
  destruct (Z.leb_spec 400 (status c)), (Z.ltb_spec (status c) 500); cbn;
    split; split; intros Hx;
    first [ reflexivity | discriminate | lia | (exfalso; lia)
          | (exfalso; apply Hx; lia) | (intros ?; lia) ].
Qed.

Lemma classification_category_agrees_witness :
  (category {| status := 403; category := client |} = client
   <-> 400 <= status {| status := 403; category := client |} < 500)
  /\ (category {| status := 403; category := client |} = server
      <-> ~ 400 <= status {| status := 403; category := client |} < 500).
Proof.
  apply (classification_category_agrees
           (Failure.mk None None (Some "Error") (Some "Error") (Some "EACCES")
              (Some "permission denied, open '/etc/app.conf'") None)).
  reflexivity.
Defined.

(** X2. A failure without an explicit status is always classified with a
    status the safe table knows, so the message the client gets is that
    table entry: the failure's own message is used to pick a status and
    never forwarded. *)
Theorem implicit_status_message_is_table_entry (err : Failure.t)
    (c : Classification) :
  no_explicit_status err ->
  classifyError err = Entry c ->
  SAFE_ERROR_MESSAGES !! status c
  = Some (generateSafeErrorMessage (status c) err)
  /\ forall m, generateSafeErrorMessage (status c) (with_message err m)
               = generateSafeErrorMessage (status c) err.
Proof.
  intros Hno Hc.
  destruct (implicit_classification_sound err c Hno Hc) as (_ & _ & [e He]).
  unfold generateSafeErrorMessage. rewrite He. split; [reflexivity |].
  intros m. reflexivity.
Qed.

Lemma implicit_status_message_is_table_entry_witness :
  SAFE_ERROR_MESSAGES !! 401
  = Some (generateSafeErrorMessage 401
            (Failure.Error "Authentication token secret123 rejected"))
  /\ forall m,
       generateSafeErrorMessage 401
         (with_message (Failure.Error "Authentication token secret123 rejected") m)
       = generateSafeErrorMessage 401
           (Failure.Error "Authentication token secret123 rejected").
Proof.
  apply (implicit_status_message_is_table_entry
           (Failure.Error "Authentication token secret123 rejected")
           {| status := 401; category := client |});
    [split; reflexivity | vm_compute; reflexivity].
Defined.

End ClassifierInvariants.

(** ** Messages *)

Section MessageSafety.

#[local] Arguments String.append !s1 s2 : simpl nomatch.

Lemma string_length_app (a b : string) :
  String.length (a +:+ b) = (String.length a + String.length b)%nat.
Proof. induction a as [| x a IH]; simpl; [reflexivity | rewrite IH; reflexivity]. Qed.

Lemma app_assoc_string (a b c : string) : (a +:+ b) +:+ c = a +:+ b +:+ c.
Proof. induction a as [| x a IH]; simpl; [reflexivity | f_equal; exact IH]. Qed.

Lemma map_string_app (f : ascii -> ascii) (a b : string) :
  map_string f (a +:+ b) = map_string f a +:+ map_string f b.
Proof. induction a as [| x a IH]; simpl; [reflexivity | f_equal; exact IH]. Qed.

Lemma safe_table_lengths :
  map_Forall (fun _ m => (String.length m <= 213)%nat) SAFE_ERROR_MESSAGES.
Proof.
  apply map_Forall_to_list.
  set (l := map_to_list SAFE_ERROR_MESSAGES). vm_compute in l. subst l.
  repeat (apply Forall_cons; split; [vm_compute; lia |]).
  apply Forall_nil. exact I.
Qed.

(** X3. A message that names a sensitive term, or has 200 characters or
    more, is never forwarded, for any status: the client gets what it
    would get if the failure had no message at all. *)
Theorem unsafe_message_never_forwarded (s : Z) (err : Failure.t) (m : string) :
  Failure.message err = Some m ->
  sensitive m \/ (200 <= String.length m)%nat ->
  generateSafeErrorMessage s err
  = generateSafeErrorMessage s (with_message err None).
Proof.
  intros Hm Hbad. unfold generateSafeErrorMessage.
  destruct (SAFE_ERROR_MESSAGES !! s); [reflexivity |].
  rewrite Hm. cbn [with_message Failure.message truthy_str default from_option].
  unfold Datatypes.id. rewrite andb_false_r.
  destruct ((400 <=? s) && (s <? 500)); [| reflexivity]. cbn [andb].
  destruct (negb (String.eqb m EmptyString)); [| reflexivity].
  destruct Hbad as [Hs | Hl].
  - apply sensitive_spec in Hs. rewrite Hs. reflexivity.
  - replace (String.length m <? 200)%nat with false
      by (symmetry; apply Nat.ltb_ge; exact Hl).
    rewrite andb_false_r. reflexivity.
Qed.

Lemma unsafe_message_never_forwarded_witness :
  generateSafeErrorMessage 422
    (Failure.Error "column Password of table users is null")
  = generateSafeErrorMessage 422
      (with_message (Failure.Error "column Password of table users is null") None).
Proof.
  apply (unsafe_message_never_forwarded 422 _
           "column Password of table users is null"); [reflexivity |].
  left. apply sensitive_spec. vm_compute. reflexivity.
Defined.

(** X4. The client-facing message is never longer than 213 characters,
    whatever the status and the failure are. *)
Theorem safe_message_length_bound (s : Z) (err : Failure.t) :
  (String.length (generateSafeErrorMessage s err) <= 213)%nat.
Proof.
  unfold generateSafeErrorMessage.
  destruct (SAFE_ERROR_MESSAGES !! s) as [e |] eqn:He.
  { exact (safe_table_lengths s e He). }
  destruct ((400 <=? s) && (s <? 500) && truthy_str (Failure.message err)).
  - destruct (negb _ && (String.length _ <? 200)%nat) eqn:Hok.
    + apply andb_true_iff in Hok as [_ Hlen]. apply Nat.ltb_lt in Hlen.
      rewrite string_length_app. cbn [String.length]. lia.
    + destruct ((400 <=? s) && (s <? 500)); vm_compute; lia.
  - destruct ((400 <=? s) && (s <? 500)); vm_compute; lia.
Qed.

(** X5. A message that contains a sensitive message is sensitive too:
    wrapping a sensitive text in more text does not get it past the check. *)
Theorem sensitive_inside_is_sensitive (pre m post : string) :
  existsb (fun pattern => test pattern m) sensitivePatterns = true ->
  existsb (fun pattern => test pattern (pre +:+ m +:+ post)) sensitivePatterns
  = true.
Proof.
  rewrite !sensitive_spec. intros (p & Hin & Hm). exists p. split; [exact Hin |].
  unfold fold_case in *.
  destruct p as [w | a b]; cbn [Matches] in *; unfold fold_case in *.
  - destruct Hm as (x & y & Hm).
    exists (map_string canonicalize pre +:+ x), (y +:+ map_string canonicalize post).
    rewrite !map_string_app, Hm, !app_assoc_string. reflexivity.
  - destruct Hm as (x & gap & y & Hm & Hgap).
    exists (map_string canonicalize pre +:+ x), gap,
           (y +:+ map_string canonicalize post).
    split; [| exact Hgap].
    rewrite !map_string_app, Hm, !app_assoc_string. reflexivity.
Qed.

Lemma sensitive_inside_is_sensitive_witness :
  existsb (fun pattern => test pattern ("cannot open " +:+ "Config.yaml" +:+ " now"))
    sensitivePatterns
  = true.
Proof.
  apply (sensitive_inside_is_sensitive "cannot open " "Config.yaml" " now").
  vm_compute. reflexivity.
Defined.

Lemma lower_length (m : string) :
  String.length (toLowerCase m) = String.length m.
Proof. induction m as [| x m IH]; simpl; [reflexivity | rewrite IH; reflexivity]. Qed.

Lemma lower_empty (m : string) :
  String.eqb (toLowerCase m) EmptyString = String.eqb m EmptyString.
Proof. destruct m; reflexivity. Qed.

(** X6. Classification by message looks at the message in lower case
    only: two failures that differ just in the letter case of their
    messages are classified alike. *)
Theorem classification_ignores_message_case (err : Failure.t) (m1 m2 : string) :
  toLowerCase m1 = toLowerCase m2 ->
  classifyError (with_message err (Some m1))
  = classifyError (with_message err (Some m2)).
Proof.
  intros Hlow. unfold classifyError.
  cbn [with_message Failure.status Failure.statusCode Failure.name
       Failure.constructor_name Failure.code Failure.message
       truthy_str default from_option].
  unfold Datatypes.id.
  rewrite <- (lower_empty m1), <- (lower_empty m2), Hlow. reflexivity.
Qed.

Lemma classification_ignores_message_case_witness :
  classifyError
    (with_message (Failure.Error "x") (Some "User NOT FOUND in directory"))
  = classifyError
      (with_message (Failure.Error "x") (Some "user not found in DIRECTORY")).
Proof.
  apply (classification_ignores_message_case (Failure.Error "x")).
  vm_compute. reflexivity.
Defined.

End MessageSafety.

(** ** Factories and the 404 handler *)

Section FactoryRoundTrip.

(** X7. An error built by the factory is classified with the factory's
    own status, whatever message it is given; that status is the one the
    classification table holds for the factory's error name, and the
    client message is the safe table's entry for it. *)
Theorem factory_errors_keep_their_status (f : Factory) (arg : option string) :
  classifyError (ErrorFactory f arg)
  = result (factory_status f) (category_of_status (factory_status f))
  /\ ERROR_CLASSIFICATIONS !! factory_name f
     = Some {| status := factory_status f;
               category := category_of_status (factory_status f) |}
  /\ SAFE_ERROR_MESSAGES !! factory_status f
     = Some (generateSafeErrorMessage (factory_status f) (ErrorFactory f arg)).
Proof.
  destruct f; (split; [reflexivity | split; [vm_compute; reflexivity |]]);
    unfold generateSafeErrorMessage;
    match goal with
    | |- ?t !! ?k = _ =>
        let e := eval vm_compute in (t !! k) in
        change (t !! k) with e
    end; reflexivity.
Qed.

End FactoryRoundTrip.

(** ** The handler as a whole *)

Section HandlerAsAWhole.
Context (env : Env).

Lemma context_correlationId_nonempty (r : Request) :
  String.eqb (context_correlationId r) EmptyString = false.
Proof.
  unfold context_correlationId.
  set (inner := or_str (correlationId r) (header "x-correlation-id" (headers r))).
  unfold or_str at 1. destruct (truthy_str inner) eqn:Ht; [| reflexivity].
  destruct inner as [cid |]; [| discriminate]. cbn in Ht |- *.
  apply negb_true_iff in Ht. exact Ht.
Qed.

(** X8. A request for an unknown route, taken by [notFoundHandler] and
    then by the error handler, is answered 404 with the safe table's text
    and without an [errorId]; the method and path that [notFoundHandler]
    writes into the error's message do not appear in the body. *)
Theorem unknown_route_response (w : World) :
  logger_throws env (calls w) = false ->
  logger_throws env (S (calls w)) = false ->
  headersSent (res w) = false ->
  exists w',
    centralizedErrorHandler env (notFoundHandler (req w)) w = (Ret tt, w')
    /\ sent (res w')
       = sent (res w)
         ++ [(404,
              JObj [ ("error", JBool true);
                     ("status", JNum 404);
                     ("message",
                      JStr "Not Found - The requested resource was not found");
                     ("timestamp", JStr (now_iso env));
                     ("correlationId", JStr (context_correlationId (req w))) ])].
Proof.
  intros Hl0 Hl1 Hsent.
  destruct (handle_error_completes env (notFoundHandler (req w))
              {| status := 404; category := client |} w)
    as (w' & Hrun & Hbody & _);
    [reflexivity | exact Hl0 | exact Hl1 | exact Hsent | cbn; lia |].
  exists w'. split.
  - unfold centralizedErrorHandler, try_catch. rewrite Hrun. reflexivity.
  - rewrite Hbody. do 3 f_equal.
    unfold classified_response, createErrorResponse. cbn [status].
    rewrite context_correlationId_nonempty. reflexivity.
Qed.

(** X9. However the handler's run ends, it writes at most one body, and
    none at all when the response's headers had already been sent. *)
Theorem response_written_at_most_once (err : Failure.t) (w : World) :
  (length (sent (res (centralizedErrorHandler env err w).2))
   <= S (length (sent (res w))))%nat
  /\ (headersSent (res w) = true ->
      sent (res (centralizedErrorHandler env err w).2) = sent (res w)).
Proof.
  destruct (centralizedErrorHandler env err w) as [o w'] eqn:Hrun.
  destruct (handler_sent_bodies env err w w' o Hrun) as (extra & Hext & Hcases & Hsent).
  cbn [snd]. split.
  - rewrite Hext, length_app.
    destruct Hcases as [-> | [-> | (c & _ & ->)]]; cbn; lia.
  - intros Hs. rewrite Hext, (Hsent Hs), app_nil_r. reflexivity.
Qed.

(** X10. The handler returns normally unless its [try] block threw and the
    logger call of its [catch] block threw as well; in that one case the
    logger's error leaves the handler and the [catch] block has written
    nothing. *)
Theorem handler_returns_or_logger_failed_twice (err : Failure.t) (w : World) :
  (centralizedErrorHandler env err w).1 = Ret tt
  \/ exists e w1,
       handle_error env err w = (Throw e, w1)
       /\ logger_throws env (calls w1) = true
       /\ (centralizedErrorHandler env err w).1 = Throw (logger_failure env)
       /\ res (centralizedErrorHandler env err w).2 = res w1.
Proof.
  unfold centralizedErrorHandler, try_catch.
  destruct (handle_error env err w) as [[[] | e] w1] eqn:Htry.
  - left. reflexivity.
  - destruct (logger_throws env (calls w1)) eqn:Hl.
    + right. exists e, w1. split; [reflexivity |]. split; [exact Hl |].
      destruct w1 as [rq rs lg n]. cbn [calls] in Hl.
      unfold handle_handler_error. run. rewrite Hl. split; reflexivity.
    + left. destruct (fallback_completes env err e w1 Hl) as (w2 & Hrun & _).
      rewrite Hrun. reflexivity.
Qed.

End HandlerAsAWhole.

Lemma unknown_route_response_witness :
  exists w',
    centralizedErrorHandler quiet_env
      (notFoundHandler (req (start users_request))) (start users_request)
    = (Ret tt, w')
    /\ sent (res w')
       = sent (res (start users_request))
         ++ [(404,
              JObj [ ("error", JBool true);
                     ("status", JNum 404);
                     ("message",
                      JStr "Not Found - The requested resource was not found");
                     ("timestamp", JStr (now_iso quiet_env));
                     ("correlationId",
                      JStr (context_correlationId (req (start users_request)))) ])].
Proof.
  apply (unknown_route_response quiet_env (start users_request)); reflexivity.
Defined.

(** ** Health and readiness *)

Import Readiness.

Section HealthMore.
Context (env : Env).

(** The answer of GET /health, for the proofs below. *)
Lemma get_health_run (rt : Runtime) (w : World) :
  logger_throws env (calls w) = false ->
  headersSent (res w) = false ->
  exists body w',
    get_health env rt w = (Ret tt, w')
    /\ sent (res w')
       = sent (res w) ++ [(if overall_health rt then 200 else 503, body)]
    /\ (overall_health rt = false ->
        get "message" (get "error" body)
        = JStr (combined_failure_message (run_checks rt))).
Proof.
  intros Hl Hsent. destruct w as [rq [sc hs hsent snt] lg n].
  cbn [calls res req headersSent sent] in *. subst hsent.
  unfold get_health, performHealthChecks. run.
  rewrite report_spec, overall_health_forallb.
  destruct (overall_health rt); run; rewrite Hl; run;
    cbn [Z.ltb Z.compare Pos.compare Pos.compare_cont orb]; run;
    eexists _, _; (split; [reflexivity |]); (split; [reflexivity |]);
    intros Hf; [discriminate | reflexivity].
Qed.

(** X11. With the configuration module loaded, whatever settings it
    computed, the configuration check finds NODE_ENV, HOST and PORT all
    missing, so GET /health answers 503 on every request. *)
Theorem health_with_loaded_config_is_503
    (server app logging middleware monitoring cluster utils : val)
    (p : Process) (x : option string) (w : World) :
  logger_throws env (calls w) = false ->
  headersSent (res w) = false ->
  let rt := {| config := Config.exports server app logging middleware
                           monitoring cluster utils;
               proc := p; require_express := x |} in
  healthy (validateConfiguration rt) = false
  /\ message (validateConfiguration rt)
     = "Missing required configuration: NODE_ENV, HOST, PORT"
  /\ exists body w',
       get_health env rt w = (Ret tt, w')
       /\ sent (res w') = sent (res w) ++ [(503, body)].
Proof.
  intros Hl Hsent rt.
  assert (Hcfg : healthy (validateConfiguration rt) = false) by reflexivity.
  split; [exact Hcfg |]. split; [reflexivity |].
  destruct (get_health_run rt w Hl Hsent) as (body & w' & Hrun & Hbody & _).
  exists body, w'. split; [exact Hrun |].
  rewrite Hbody. unfold overall_health. rewrite Hcfg.
  rewrite andb_false_r. reflexivity.
Qed.

(** X12. In bytes, the memory check passes exactly below the threshold
    less half a megabyte: rounding to whole megabytes makes 99.5 MB count
    as 100 MB. *)
Theorem memory_check_boundary (rt : Runtime) :
  healthy (validateMemoryUsage rt) = true
  <-> rss (proc rt)
      < (if is_production (config rt) then 150 else 100) * 1048576 - 524288.
Proof.
  rewrite memory_check_threshold, Z.ltb_lt. unfold round_MB.
  set (T := if is_production (config rt) then 150 else 100).
  split; intros H.
  - apply Z.nle_gt. intros Hge. apply Z.nle_gt in H. apply H.
    apply Z.div_le_lower_bound; lia.
  - apply Z.div_lt_upper_bound; lia.
Qed.

(** X13. When the memory check fails, GET /health answers 503 and the
    failure message names memory first, with the check's own message. *)
Theorem memory_breach_answers_503 (rt : Runtime) (w : World) :
  logger_throws env (calls w) = false ->
  headersSent (res w) = false ->
  healthy (validateMemoryUsage rt) = false ->
  exists body w' rest,
    get_health env rt w = (Ret tt, w')
    /\ sent (res w') = sent (res w) ++ [(503, body)]
    /\ get "message" (get "error" body)
       = JStr ("Health check failures: " +:+ "memory: "
               +:+ message (validateMemoryUsage rt) +:+ rest).
Proof.
  intros Hl Hsent Hm.
  destruct (memory_breach_listed rt Hm) as (Hover & rest & Hmsg).
  destruct (get_health_run rt w Hl Hsent) as (body & w' & Hrun & Hbody & Herr).
  exists body, w', rest. split; [exact Hrun |].
  rewrite Hover in Hbody. split; [exact Hbody |].
  rewrite (Herr Hover), Hmsg. reflexivity.
Qed.

End HealthMore.

Lemma health_with_loaded_config_is_503_witness :
  healthy (validateConfiguration production_runtime) = false
  /\ message (validateConfiguration production_runtime)
     = "Missing required configuration: NODE_ENV, HOST, PORT"
  /\ exists body w',
       get_health quiet_env production_runtime (start health_request)
       = (Ret tt, w')
       /\ sent (res w') = sent (res (start health_request)) ++ [(503, body)].
Proof.
  apply (health_with_loaded_config_is_503 quiet_env
           (JObj [ ("host", JStr "127.0.0.1"); ("port", JNum 3000);
                   ("timeout", JOpaque "timeout");
                   ("keepAliveTimeout", JOpaque "keepAliveTimeout");
                   ("maxHeadersCount", JOpaque "maxHeadersCount") ])
           (JObj [ ("env", JStr "production"); ("name", JOpaque "name");
                   ("version", JOpaque "version"); ("debug", JOpaque "debug");
                   ("trustProxy", JOpaque "trustProxy") ])
           (JOpaque "logging") (JOpaque "middleware") (JOpaque "monitoring")
           (JOpaque "cluster") (JOpaque "utils")
           process_120MB None (start health_request)); reflexivity.
Defined.

Lemma memory_breach_answers_503_witness :
  exists body w' rest,
    get_health quiet_env production_runtime (start health_request) = (Ret tt, w')
    /\ sent (res w') = sent (res (start health_request)) ++ [(503, body)]
    /\ get "message" (get "error" body)
       = JStr ("Health check failures: " +:+ "memory: "
               +:+ message (validateMemoryUsage production_runtime) +:+ rest).
Proof.
  apply (memory_breach_answers_503 quiet_env production_runtime
           (start health_request)); reflexivity.
Defined.

Section ReadinessProperties.
Context (env : Env).

(** Decide the [filter] of a list written out, one element at a time. *)
Ltac decide_filter :=
  repeat (rewrite filter_cons; cbn [snd fst];
          match goal with
          | |- context [decide (?b = false)] =>
              let E := fresh "E" in
              destruct b eqn:E;
              [ rewrite decide_False by discriminate
              | rewrite decide_True by reflexivity ]
          end);
  rewrite ?filter_nil.

Lemma readiness_is_all_ready (rt : Runtime) (versions_node : string) :
  ready (performReadinessChecks rt versions_node) = all_ready rt versions_node.
Proof.
  unfold performReadinessChecks, all_ready.
  set (s := validateServerReadiness rt versions_node).
  set (c := validateConfigurationReadiness rt).
  set (d := validateDependencyReadiness rt).
  decide_filter; reflexivity.
Qed.

(** X14. GET /ready answers 200 exactly when the [ready] value of each of
    its three checks is truthy; otherwise it answers 503 and reports, in
    [error], the name and message of every check that is not ready. *)
Theorem readiness_answer (rt : Runtime) (versions_node : string) (w : World) :
  logger_throws env (calls w) = false ->
  headersSent (res w) = false ->
  exists body w',
    get_ready env rt versions_node w = (Ret tt, w')
    /\ sent (res w')
       = sent (res w)
         ++ [(if all_ready rt versions_node then 200 else 503, body)]
    /\ if all_ready rt versions_node
       then get "status" body = JStr "ready"
            /\ keys (get "checks" body)
               = ["server"; "configuration"; "dependencies"]
       else get "status" body = JStr "not ready"
            /\ get "error" body
               = JStr ("Readiness check failed: "
                       +:+ join ", "
                             (map (fun kc => kc.1 +:+ ": "
                                             +:+ template (get "message" kc.2))
                                  (filter
                                     (fun kc => truthy (get "ready" kc.2) = false)
                                     (checks (performReadinessChecks
                                                rt versions_node))))).
Proof.
  intros Hl Hsent. destruct w as [rq [sc hs hsent snt] lg n].
  cbn [calls res req headersSent sent] in *. subst hsent.
  unfold get_ready. run.
  rewrite <- readiness_is_all_ready.
  unfold performReadinessChecks.
  set (s := validateServerReadiness rt versions_node).
  set (c := validateConfigurationReadiness rt).
  set (d := validateDependencyReadiness rt).
  destruct (0 <? length (filter _ [("server", s); ("configuration", c);
                                    ("dependencies", d)]))%nat eqn:Hn;
    cbn [ready checks failureReason default from_option]; unfold Datatypes.id;
    run; rewrite Hl; run;
    cbn [Z.ltb Z.compare Pos.compare Pos.compare_cont orb]; run;
    eexists _, _; (split; [reflexivity |]); (split; [reflexivity |]);
    split; reflexivity.
Qed.

(** X15. Whenever the five health checks all pass (and the runtime reports
    its version), the three readiness checks pass as well: a service that
    GET /health calls healthy is never refused by GET /ready. *)
Theorem healthy_implies_ready (rt : Runtime) (versions_node : string) :
  overall_health rt = true ->
  versions_node <> EmptyString ->
  all_ready rt versions_node = true.
Proof.
  intros Hh Hv. unfold overall_health in Hh.
  repeat (apply andb_true_iff in Hh as [Hh ?]).
  unfold all_ready. apply andb_true_iff; split; [apply andb_true_iff; split |].
  - cbn. destruct (String.eqb_spec versions_node EmptyString);
      [contradiction | reflexivity].
  - match goal with
    | Hc : healthy (validateConfiguration rt) = true |- _ =>
        revert Hc
    end.
    unfold validateConfiguration, validateConfigurationReadiness, js_and.
    rewrite !filter_cons, filter_nil.
    set (e := get "NODE_ENV" (config rt)).
    set (h := get "HOST" (config rt)).
    set (p := get "PORT" (config rt)).
    cbn [get assoc String.eqb Ascii.eqb Bool.eqb default from_option].
    unfold Datatypes.id.
    destruct (truthy e) eqn:Ee, (truthy h) eqn:Eh, (truthy p) eqn:Ep;
      repeat case_decide; try discriminate; congruence.
  - match goal with
    | Hd : healthy (validateDependencies rt) = true |- _ => revert Hd
    end.
    unfold validateDependencies, validateDependencyReadiness,
      checkExpressDependency.
    destruct (require_express rt); decide_filter; cbn; (discriminate || reflexivity).
Qed.

End ReadinessProperties.

Lemma readiness_answer_witness :
  exists body w',
    get_ready quiet_env fallback_runtime "18.17.0" (start health_request)
    = (Ret tt, w')
    /\ sent (res w')
       = sent (res (start health_request))
         ++ [(if all_ready fallback_runtime "18.17.0" then 200 else 503, body)]
    /\ if all_ready fallback_runtime "18.17.0"
       then get "status" body = JStr "ready"
            /\ keys (get "checks" body)
               = ["server"; "configuration"; "dependencies"]
       else get "status" body = JStr "not ready"
            /\ get "error" body
               = JStr ("Readiness check failed: "
                       +:+ join ", "
                             (map (fun kc => kc.1 +:+ ": "
                                             +:+ template (get "message" kc.2))
                                  (filter
                                     (fun kc => truthy (get "ready" kc.2) = false)
                                     (checks (performReadinessChecks
                                                fallback_runtime "18.17.0"))))).
Proof.
  apply (readiness_answer quiet_env fallback_runtime "18.17.0"
           (start health_request)); reflexivity.
Defined.

Lemma healthy_implies_ready_witness :
  all_ready fallback_runtime "18.17.0" = true.
Proof.
  apply (healthy_implies_ready fallback_runtime "18.17.0");
    [vm_compute; reflexivity | discriminate].
Defined.

(** ** Correlation identifiers, again *)

(** X16. The middleware puts the identifier on the request and in the
    X-Correlation-ID header before it makes any logger call, so both are
    in place however those calls end. *)
Theorem identifier_assigned_before_logging (env : Env) (w : World) :
  headersSent (res w) = false ->
  correlationId (req (LoggerMiddleware.correlationIdMiddleware env w).2)
  = Some (uuid env)
  /\ header "X-Correlation-ID"
       (res_headers (res (LoggerMiddleware.correlationIdMiddleware env w).2))
     = Some (uuid env).
Proof.
  intros Hsent.
  destruct (LoggerMiddleware.correlationIdMiddleware env w) as [o w'] eqn:Hrun.
  exact (middleware_assigns_identifier env w w' o Hsent Hrun).
Qed.

Lemma identifier_assigned_before_logging_witness :
  correlationId
    (req (LoggerMiddleware.correlationIdMiddleware repository_env
            (start health_request)).2)
  = Some (uuid repository_env)
  /\ header "X-Correlation-ID"
       (res_headers
          (res (LoggerMiddleware.correlationIdMiddleware repository_env
                  (start health_request)).2))
     = Some (uuid repository_env).
Proof.
  apply (identifier_assigned_before_logging repository_env
           (start health_request)).
  reflexivity.
Defined.

(** ** Decimal numerals *)

Section Decimal.

#[local] Arguments String.append !s1 s2 : simpl nomatch.

Lemma digit_of_char (d : N) :
  (d < 10)%N -> digit (pretty_N_char d) = Some (Z.of_N d).
Proof.
  intros Hd.
  assert (d = 0 \/ d = 1 \/ d = 2 \/ d = 3 \/ d = 4 \/ d = 5 \/ d = 6 \/ d = 7
          \/ d = 8 \/ d = 9)%N as Hcases by lia.
  repeat (destruct Hcases as [-> | Hcases]; [reflexivity |]).
  subst d. reflexivity.
Qed.

Lemma char_not_dot (d : N) : (code (pretty_N_char d) =? 46)%N = false.
Proof. unfold pretty_N_char. repeat case_match; reflexivity. Qed.

Lemma digits_from_stop (acc : Z) (s : string) :
  stops_digits s -> digits_from acc s = acc.
Proof. destruct s as [| c s]; cbn; [reflexivity | intros ->; reflexivity]. Qed.

(** Reading the digits that [pretty_N_go] writes gives the number back. *)
Lemma digits_from_pretty_go (x : N) :
  exists k, 0 <= k /\ forall acc t,
    digits_from acc (pretty_N_go x t)
    = digits_from (acc * 10 ^ k + Z.of_N x) t.
Proof.
  induction (N.lt_wf_0 x) as [x _ IH].
  destruct (N.eq_dec x 0) as [-> | Hx].
  - exists 0. split; [lia |]. intros acc t. rewrite pretty_N_go_0.
    f_equal. cbn. lia.
  - assert (Hpos : (0 < x)%N) by lia.
    destruct (IH (x `div` 10)%N) as (k & Hk & Hread).
    { apply N.div_lt; lia. }
    exists (k + 1). split; [lia |]. intros acc t.
    rewrite pretty_N_go_step by exact Hpos. rewrite Hread.
    cbn [digits_from]. rewrite digit_of_char by (apply N.mod_lt; lia).
    f_equal. rewrite N2Z.inj_div, N2Z.inj_mod, Z.pow_add_r by lia.
    change (Z.of_N 10) with 10.
    rewrite Z.pow_1_r.
    pose proof (Z.div_mod (Z.of_N x) 10 ltac:(lia)) as Hdm. lia.
Qed.

Lemma pretty_go_app (x : N) (t : string) :
  pretty_N_go x t = pretty_N_go x EmptyString +:+ t.
Proof.
  revert t. induction (N.lt_wf_0 x) as [x _ IH]. intros t.
  destruct (N.eq_dec x 0) as [-> | Hx].
  - rewrite !pretty_N_go_0. reflexivity.
  - rewrite !(pretty_N_go_step x) by lia.
    rewrite (IH (x `div` 10)%N ltac:(apply N.div_lt; lia) (String _ t)).
    rewrite (IH (x `div` 10)%N ltac:(apply N.div_lt; lia) (String _ EmptyString)).
    rewrite app_assoc_string. reflexivity.
Qed.

Lemma pretty_go_head (x : N) (t : string) :
  (0 < x)%N ->
  exists c r d, pretty_N_go x t = String c r /\ digit c = Some d.
Proof.
  revert t. induction (N.lt_wf_0 x) as [x _ IH]. intros t Hpos.
  rewrite pretty_N_go_step by exact Hpos.
  destruct (N.eq_dec (x `div` 10) 0) as [-> | Hq].
  - rewrite pretty_N_go_0. eexists _, _, _. split; [reflexivity |].
    apply digit_of_char, N.mod_lt. lia.
  - apply IH; [apply N.div_lt; lia | apply N.neq_0_lt_0; exact Hq].
Qed.

Lemma pretty_go_before_dot (x : N) (s rest : string) :
  before_dot (s +:+ "." +:+ rest) = s ->
  before_dot (pretty_N_go x s +:+ "." +:+ rest) = pretty_N_go x s.
Proof.
  revert s. induction (N.lt_wf_0 x) as [x _ IH]. intros s Hs.
  destruct (N.eq_dec x 0) as [-> | Hx].
  - rewrite pretty_N_go_0. exact Hs.
  - rewrite pretty_N_go_step by lia. apply IH; [apply N.div_lt; lia |].
    change (before_dot (String (pretty_N_char (x `mod` 10)%N)
                          (s +:+ "." +:+ rest))
            = String (pretty_N_char (x `mod` 10)%N) s).
    cbn [before_dot]. rewrite char_not_dot, Hs. reflexivity.
Qed.

(** [show] of a natural number: digits that read back as the number. *)
Lemma show_nonneg (n : Z) :
  0 <= n ->
  show n = pretty (Z.to_N n).
Proof.
  intros Hn. unfold show, pretty, pretty_Z.
  destruct n as [| p | p]; [reflexivity | reflexivity | lia].
Qed.

Lemma show_value (n : Z) (tail : string) :
  0 <= n -> stops_digits tail -> digits_from 0 (show n +:+ tail) = n.
Proof.
  intros Hn Htail. rewrite (show_nonneg n Hn). unfold pretty, pretty_N.
  case_decide as H0.
  - assert (n = 0) as -> by lia.
    change (digits_from 0 tail = 0). apply digits_from_stop, Htail.
  - rewrite <- pretty_go_app.
    destruct (digits_from_pretty_go (Z.to_N n)) as (k & _ & Hread).
    rewrite Hread, digits_from_stop by exact Htail. lia.
Qed.

Lemma show_head (n : Z) (tail : string) :
  0 <= n ->
  exists c r d, show n +:+ tail = String c r /\ digit c = Some d.
Proof.
  intros Hn. rewrite (show_nonneg n Hn). unfold pretty, pretty_N.
  case_decide as H0.
  - eexists _, _, _. split; reflexivity.
  - rewrite <- pretty_go_app. apply pretty_go_head. lia.
Qed.

Lemma show_before_dot (n : Z) (rest : string) :
  0 <= n -> before_dot (show n +:+ "." +:+ rest) = show n.
Proof.
  intros Hn. rewrite (show_nonneg n Hn). unfold pretty, pretty_N.
  case_decide as H0; [reflexivity |].
  apply pretty_go_before_dot. reflexivity.
Qed.

(** [parseInt] of a rendered natural number is the number. *)
Lemma parseInt_show (n : Z) : 0 <= n -> parseInt (show n) = Some n.
Proof.
  intros Hn.
  destruct (show_head n EmptyString Hn) as (c & r & d & Hs & Hd).
  rewrite append_nil_r in Hs.
  unfold parseInt. rewrite Hs, Hd, <- Hs.
  rewrite <- (append_nil_r (show n)), show_value by (exact Hn || exact I).
  reflexivity.
Qed.

End Decimal.

Section NodeVersion.

(** X17. For a runtime whose version reads "v", the major number, a dot
    and the rest, the environment check passes exactly when the major
    number is 14 or more. *)
Theorem node_version_floor (rt : Runtime) (major : Z) (rest : string) :
  0 <= major ->
  version (proc rt) = "v" +:+ show major +:+ "." +:+ rest ->
  (healthy (validateEnvironment rt) = true <-> 14 <= major).
Proof.
  intros Hm Hv. unfold validateEnvironment. rewrite Hv.
  change (drop 1 ("v" +:+ show major +:+ "." +:+ rest))
    with (show major +:+ "." +:+ rest).
  rewrite show_before_dot, parseInt_show by exact Hm.
  destruct (Z.ltb_spec major 14); cbn [healthy]; split; intros; (discriminate || lia || reflexivity).
Qed.

Lemma node_version_floor_witness :
  healthy (validateEnvironment fallback_runtime) = true <-> 14 <= 18.
Proof.
  apply (node_version_floor fallback_runtime 18 "17.0"); [lia | reflexivity].
Defined.

End NodeVersion.

(** ** The configuration read from the environment *)

Section Configuration.
Import ConfigUtils.

#[local] Arguments String.append !s1 s2 : simpl nomatch.

Lemma digit_bounds (c : ascii) (d : Z) :
  digit c = Some d -> (48 <= code c <= 57)%N.
Proof.
  unfold digit. intros Hd.
  destruct (N.leb_spec 48 (code c)), (N.leb_spec (code c) 57);
    cbn in Hd; (discriminate || lia).
Qed.

Lemma parseInt10_show (n : Z) (rest : string) :
  0 <= n -> stops_digits rest -> parseInt10 (show n +:+ rest) = Some n.
Proof.
  intros Hn Hrest.
  destruct (show_head n rest Hn) as (c & r & d & Hs & Hd).
  pose proof (digit_bounds c d Hd) as Hc.
  unfold parseInt10. rewrite Hs. cbn [trimStart].
  assert (is_space c = false) as ->.
  { unfold is_space. cbv zeta.
    destruct (N.leb_spec 9 (code c)), (N.leb_spec (code c) 13),
      (N.eqb_spec (code c) 32), (N.eqb_spec (code c) 160); try reflexivity; lia. }
  cbv zeta.
  destruct (N.eqb_spec (code c) 45) as [? | _]; [lia |].
  destruct (N.eqb_spec (code c) 43) as [? | _]; [lia |].
  cbn [fst snd]. rewrite Hd, <- Hs, show_value by assumption.
  f_equal. lia.
Qed.

Lemma parseInt_bounds (value : option string) (d min max : Z) :
  min <= d <= max -> min <= (parseInt value d min max).1 <= max.
Proof.
  intros Hd. unfold parseInt.
  destruct (truthy_str value); cbn [negb fst]; [| exact Hd].
  destruct (parseInt10 _) as [parsed |]; [| exact Hd].
  destruct (Z.ltb_spec parsed min), (Z.ltb_spec max parsed);
    cbn [orb fst]; lia.
Qed.

Lemma parseString_allowed (value : option string) (d : string)
    (allowed : list string) :
  d ∈ allowed -> (parseString value d (Some allowed)).1 ∈ allowed.
Proof.
  intros Hd. unfold parseString.
  destruct (truthy_str value); cbn [negb fst]; [| exact Hd].
  destruct (String.eqb _ EmptyString); [exact Hd |].
  case_bool_decide; cbn [negb fst]; assumption.
Qed.

Lemma parseString_nonempty (value : option string) (d : string)
    (allowed : option (list string)) :
  d <> EmptyString -> (parseString value d allowed).1 <> EmptyString.
Proof.
  intros Hd. unfold parseString.
  destruct (truthy_str value); cbn [negb fst]; [| exact Hd].
  destruct (String.eqb_spec (trim (default EmptyString value)) EmptyString)
    as [_ | Hne]; [exact Hd |].
  destruct allowed as [allowed |]; [| exact Hne].
  case_bool_decide; cbn [negb fst]; assumption.
Qed.

Lemma server_host_valid (penv : gmap string string) :
  isValidHost (server_host penv).1 = true.
Proof.
  unfold server_host.
  destruct (parseString _ "127.0.0.1" None) as [envHost ws].
  destruct (isValidHost envHost) eqn:Hv; cbn [negb fst]; [exact Hv | reflexivity].
Qed.

Lemma valid_host_nonempty (host : string) :
  isValidHost host = true -> String.eqb host EmptyString = false.
Proof. unfold isValidHost. destruct (String.eqb host EmptyString); [discriminate | reflexivity]. Qed.

Lemma validationErrors_nil (penv : gmap string string) :
  validationErrors penv = [].
Proof.
  unfold validationErrors.
  pose proof (server_host_valid penv) as Hh.
  rewrite (valid_host_nonempty _ Hh), Hh. cbn [negb orb].
  assert (1024 <= (server_port penv).1 <= 65535) as Hp
    by (apply parseInt_bounds; lia).
  destruct (Z.ltb_spec (server_port penv).1 1024); [lia |].
  destruct (Z.ltb_spec 65535 (server_port penv).1); [lia |].
  cbn [orb].
  assert ((app_env penv).1 ∈ environments) as He.
  { apply parseString_allowed. left. }
  rewrite (bool_decide_eq_true_2 _ He). cbn [negb].
  assert ((logging_directory penv).1 <> EmptyString) as Hdir.
  { apply parseString_nonempty. discriminate. }
  destruct (String.eqb_spec (logging_directory penv).1 EmptyString) as [? | _];
    [contradiction |].
  rewrite andb_false_r. reflexivity.
Qed.

(** *** White space around a value *)

Lemma trimStart_spaces (w s : string) :
  all_chars is_space w = true -> trimStart (w +:+ s) = trimStart s.
Proof.
  induction w as [| c w IH]; [reflexivity |].
  cbn [all_chars]. intros [Hc Hw]%andb_true_iff.
  change (String c w +:+ s) with (String c (w +:+ s)).
  cbn [trimStart]. rewrite Hc. apply IH, Hw.
Qed.

Lemma trimEnd_all_spaces (w : string) :
  all_chars is_space w = true -> trimEnd w = EmptyString.
Proof.
  induction w as [| c w IH]; [reflexivity |].
  cbn [all_chars trimEnd]. intros [Hc Hw]%andb_true_iff.
  rewrite (IH Hw), Hc. reflexivity.
Qed.

Lemma trimEnd_spaces (s w : string) :
  all_chars is_space w = true -> trimEnd (s +:+ w) = trimEnd s.
Proof.
  intros Hw. induction s as [| c s IH].
  - apply trimEnd_all_spaces, Hw.
  - change (String c s +:+ w) with (String c (s +:+ w)).
    cbn [trimEnd]. rewrite IH. reflexivity.
Qed.

Lemma trim_app_spaces (s w : string) :
  all_chars is_space w = true -> trim (s +:+ w) = trim s.
Proof.
  intros Hw. unfold trim. induction s as [| c s IH].
  - change (EmptyString +:+ w) with w.
    rewrite <- (append_nil_r w), trimStart_spaces by exact Hw. reflexivity.
  - change (String c s +:+ w) with (String c (s +:+ w)).
    cbn [trimStart]. destruct (is_space c); [exact IH |].
    apply (trimEnd_spaces (String c s) w Hw).
Qed.

Lemma trim_outer_spaces (w1 s w2 : string) :
  all_chars is_space w1 = true -> all_chars is_space w2 = true ->
  trim (w1 +:+ s +:+ w2) = trim s.
Proof.
  intros H1 H2. rewrite <- (trim_app_spaces s w2 H2).
  unfold trim. rewrite trimStart_spaces by exact H1. reflexivity.
Qed.

Lemma trim_empty_falsy (s : string) :
  String.eqb s EmptyString = true -> String.eqb (trim s) EmptyString = true.
Proof. intros ->%String.eqb_eq. reflexivity. Qed.

(** *** Characters of a host name *)

Lemma all_chars_impl (p q : ascii -> bool) (s : string) :
  (forall c, p c = true -> q c = true) ->
  all_chars p s = true -> all_chars q s = true.
Proof.
  intros Hpq. induction s as [| c s IH]; [reflexivity |].
  cbn [all_chars]. intros [Hc Hs]%andb_true_iff.
  rewrite (Hpq c Hc), (IH Hs). reflexivity.
Qed.

Lemma split_dots_chars (p : ascii -> bool) (s : string) :
  forallb (all_chars p) (split_dots s) = true ->
  all_chars (fun c => p c || (code c =? 46)%N) s = true.
Proof.
  induction s as [| c s IH]; [reflexivity |].
  cbn [split_dots all_chars].
  destruct (N.eqb_spec (code c) 46) as [Hdot | Hdot].
  - cbn [forallb all_chars andb]. intros Hs.
    rewrite orb_true_r. exact (IH Hs).
  - destruct (split_dots s) as [| part parts].
    + cbn [forallb all_chars]. intros Hc. rewrite !andb_true_r in Hc.
      rewrite Hc. cbn [orb andb]. exact (IH eq_refl).
    + cbn [forallb all_chars]. intros [[Hc Hpart]%andb_true_iff Hparts]%andb_true_iff.
      rewrite Hc. cbn [orb andb]. apply IH. cbn [forallb].
      rewrite Hpart, Hparts. reflexivity.
Qed.

Lemma forallb_impl' {A} (f g : A -> bool) (l : list A) :
  (forall x, f x = true -> g x = true) ->
  forallb f l = true -> forallb g l = true.
Proof.
  intros Hfg. induction l as [| x l IH]; [reflexivity |].
  cbn [forallb]. intros [Hx Hl]%andb_true_iff.
  rewrite (Hfg x Hx), (IH Hl). reflexivity.
Qed.

Lemma digit_is_alnum (c : ascii) : is_digit c = true -> is_alnum c = true.
Proof. unfold is_digit, is_alnum. cbv zeta. intros ->. reflexivity. Qed.

Lemma label_chars (s : string) :
  label s = true -> all_chars (fun x => is_alnum x || is_hyphen x) s = true.
Proof.
  unfold label. destruct s as [| c s]; [discriminate |].
  intros [[_ Hall]%andb_true_iff _]%andb_true_iff. exact Hall.
Qed.

(** X18. An integer setting whose default lies within its bounds always
    lies within them, whatever the environment variable holds. *)
Theorem integer_setting_within_bounds (value : option string) (d min max : Z) :
  min <= d <= max -> min <= (parseInt value d min max).1 <= max.
Proof. apply parseInt_bounds. Qed.

Lemma integer_setting_within_bounds_witness :
  1024 <= (parseInt (Some "80") 3000 1024 65535).1 <= 65535.
Proof. apply (integer_setting_within_bounds (Some "80") 3000 1024 65535). lia. Defined.

(** X19. A variable that holds the decimal digits of a number within the
    bounds (and small enough for JavaScript to hold it exactly), followed
    by anything that does not start with a digit, is read as that number,
    without a warning. *)
Theorem integer_setting_reads_decimal (n d min max : Z) (rest : string) :
  0 <= n <= MAX_SAFE_INTEGER -> min <= n <= max -> stops_digits rest ->
  parseInt (Some (show n +:+ rest)) d min max = (n, []).
Proof.
  intros [Hn _] Hr Hrest. unfold parseInt.
  destruct (show_head n rest Hn) as (c & r & x & Hs & _).
  assert (truthy_str (Some (show n +:+ rest)) = true) as ->
    by (rewrite Hs; reflexivity).
  cbn [negb default from_option]. unfold Datatypes.id.
  rewrite parseInt10_show by assumption.
  destruct (Z.ltb_spec n min); [lia |].
  destruct (Z.ltb_spec max n); [lia |]. reflexivity.
Qed.

Lemma integer_setting_reads_decimal_witness :
  parseInt (Some (show 8080 +:+ "/tcp")) 3000 1024 65535 = (8080, []).
Proof.
  apply (integer_setting_reads_decimal 8080 3000 1024 65535 "/tcp");
    [unfold MAX_SAFE_INTEGER; lia | lia | reflexivity].
Defined.

(** X20. White space around the value of a string setting changes
    neither the setting nor the warning. *)
Theorem string_setting_ignores_outer_space (w1 s w2 d : string)
    (allowed : option (list string)) :
  all_chars is_space w1 = true -> all_chars is_space w2 = true ->
  parseString (Some (w1 +:+ s +:+ w2)) d allowed = parseString (Some s) d allowed.
Proof.
  intros H1 H2. unfold parseString. cbn [default from_option truthy_str].
  unfold Datatypes.id.
  rewrite (trim_outer_spaces w1 s w2 H1 H2).
  destruct (String.eqb_spec (w1 +:+ s +:+ w2) EmptyString) as [He | _];
    destruct (String.eqb_spec s EmptyString) as [Hs | Hs]; cbn [negb];
    try reflexivity.
  - destruct w1; [| discriminate]. cbn in He. destruct s; [contradiction | discriminate].
  - subst s. reflexivity.
Qed.

Lemma string_setting_ignores_outer_space_witness :
  parseString (Some (" " +:+ "production" +:+ " ")) "development" (Some environments)
  = parseString (Some "production") "development" (Some environments).
Proof.
  apply (string_setting_ignores_outer_space " " "production" " ");
    reflexivity.
Defined.

(** X21. A host accepted by [isValidHost] is made of letters, digits,
    hyphens and dots only. *)
Theorem valid_host_characters (host : string) :
  isValidHost host = true -> all_chars host_char host = true.
Proof.
  unfold isValidHost. destruct (String.eqb host EmptyString); [discriminate |].
  intros [[Hl | Hip]%orb_true_iff | Hd]%orb_true_iff.
  - unfold localhostPattern in Hl. apply bool_decide_eq_true_1 in Hl.
    repeat (apply elem_of_cons in Hl as [-> | Hl]; [reflexivity |]).
    apply elem_of_nil in Hl. contradiction.
  - unfold ipPattern in Hip. apply andb_true_iff in Hip as [_ Hparts].
    apply (all_chars_impl (fun c => is_alnum c || (code c =? 46)%N)).
    { unfold host_char. intros c [-> | ->]%orb_true_iff;
        [reflexivity | apply orb_true_r]. }
    apply split_dots_chars. revert Hparts. apply forallb_impl'.
    intros part [_ Hdigits]%andb_true_iff. revert Hdigits.
    apply all_chars_impl, digit_is_alnum.
  - unfold domainPattern in Hd.
    apply (split_dots_chars (fun x => is_alnum x || is_hyphen x)).
    revert Hd. apply forallb_impl', label_chars.
Qed.

Lemma valid_host_characters_witness :
  all_chars host_char "api.example-host.com" = true.
Proof. apply (valid_host_characters "api.example-host.com"). reflexivity. Defined.

(** X22. Whatever the environment holds, the settings read at load time
    are acceptable: the host is a valid host, the port lies between 1024
    and 65535, the environment is one of the four known ones and the log
    directory is not empty. *)
Theorem settings_always_acceptable (penv : gmap string string) :
  isValidHost (server_host penv).1 = true
  /\ 1024 <= (server_port penv).1 <= 65535
  /\ (app_env penv).1 ∈ environments
  /\ (logging_directory penv).1 <> EmptyString.
Proof.
  split; [apply server_host_valid |].
  split; [apply parseInt_bounds; lia |].
  split; [apply parseString_allowed; left |].
  apply parseString_nonempty. discriminate.
Qed.

(** X23. The validation run when the configuration is loaded never
    fails: for every environment it collects no error and returns
    [true]. *)
Theorem load_time_validation_never_fails (penv : gmap string string) :
  validationErrors penv = [] /\ validateConfiguration penv = Ret true.
Proof.
  split; [apply validationErrors_nil |].
  unfold validateConfiguration. rewrite validationErrors_nil. reflexivity.
Qed.

End Configuration.

(** ** The users resource *)

Section Users.
Import ConfigUtils.

#[local] Arguments String.append !s1 s2 : simpl nomatch.

Lemma digit_is_digit (c : ascii) (d : Z) : digit c = Some d -> is_digit c = true.
Proof.
  intros Hd%digit_bounds. unfold is_digit. cbv zeta.
  destruct (N.leb_spec 48 (code c)), (N.leb_spec (code c) 57); (reflexivity || lia).
Qed.

Lemma is_digit_digit (c : ascii) : is_digit c = true -> exists d, digit c = Some d.
Proof.
  unfold is_digit, digit. cbv zeta. intros ->. eexists. reflexivity.
Qed.

Lemma pretty_go_digits (x : N) (t : string) :
  all_chars is_digit t = true -> all_chars is_digit (pretty_N_go x t) = true.
Proof.
  revert t. induction (N.lt_wf_0 x) as [x _ IH]. intros t Ht.
  destruct (N.eq_dec x 0) as [-> | Hx].
  - rewrite pretty_N_go_0. exact Ht.
  - rewrite pretty_N_go_step by lia.
    apply IH; [apply N.div_lt; lia |].
    cbn [all_chars]. rewrite Ht, andb_true_r.
    apply (digit_is_digit _ (Z.of_N (x `mod` 10))), digit_of_char.
    apply N.mod_lt. lia.
Qed.

Lemma show_digits (n : Z) : 0 <= n -> all_chars is_digit (show n) = true.
Proof.
  intros Hn. rewrite (show_nonneg n Hn). unfold pretty, pretty_N.
  case_decide; [reflexivity |]. apply pretty_go_digits. reflexivity.
Qed.

Lemma digit_not_space (c : ascii) : is_digit c = true -> is_space c = false.
Proof.
  unfold is_digit, is_space. cbv zeta.
  destruct (N.leb_spec 48 (code c)), (N.leb_spec (code c) 57); try discriminate.
  intros _.
  destruct (N.leb_spec 9 (code c)), (N.leb_spec (code c) 13),
    (N.eqb_spec (code c) 32), (N.eqb_spec (code c) 160); try reflexivity; lia.
Qed.

Lemma parseInt_digits (s : string) :
  s <> EmptyString -> all_chars is_digit s = true ->
  Api.parseInt s = Some (digits_from 0 s).
Proof.
  destruct s as [| c r]; [contradiction |]. intros _.
  cbn [all_chars]. intros [Hc Hr]%andb_true_iff.
  unfold Api.parseInt. cbn [trimStart]. rewrite (digit_not_space c Hc). cbv zeta.
  destruct (is_digit_digit c Hc) as [d Hd].
  pose proof (digit_bounds c d Hd) as Hb.
  destruct (N.eqb_spec (code c) 45) as [? | _]; [lia |].
  destruct (N.eqb_spec (code c) 43) as [? | _]; [lia |].
  cbn [fst snd]. rewrite Hd.
  assert (forall v : Z, 1 * v = v) as Hone by (intros; lia).
  destruct r as [| x r']; [rewrite Hone; reflexivity |].
  cbn [all_chars] in Hr. apply andb_true_iff in Hr as [Hx _].
  destruct (is_digit_digit x Hx) as [dx Hdx].
  pose proof (digit_bounds x dx Hdx) as Hbx.
  destruct (N.eqb_spec (code x) 120) as [? | _]; [lia |].
  destruct (N.eqb_spec (code x) 88) as [? | _]; [lia |].
  rewrite andb_false_r, Hone. reflexivity.
Qed.

Lemma parseInt_of_show (n : Z) : 0 <= n -> Api.parseInt (show n) = Some n.
Proof.
  intros Hn.
  destruct (show_head n EmptyString Hn) as (c & r & d & Hs & _).
  rewrite append_nil_r in Hs.
  rewrite parseInt_digits.
  - rewrite <- (append_nil_r (show n)), show_value by (exact Hn || exact I).
    reflexivity.
  - rewrite Hs. discriminate.
  - apply show_digits, Hn.
Qed.

(** *** Slices *)

Lemma slice_window {A : Type} (a L : Z) (l : list A) :
  0 <= a -> 0 <= L ->
  Api.slice a (a + L) l = take (Z.to_nat L) (skipn (Z.to_nat a) l).
Proof.
  intros Ha HL. unfold Api.slice.
  destruct (Z.ltb_spec a 0); [lia |].
  destruct (Z.ltb_spec (a + L) 0); [lia |].
  destruct (Z_lt_le_dec a (Z.of_nat (length l))) as [Hin | Hout].
  - rewrite (Z.min_l a) by lia.
    transitivity (take (Z.to_nat L `min` length (skipn (Z.to_nat a) l))
                    (skipn (Z.to_nat a) l)).
    + f_equal. rewrite length_skipn. lia.
    + rewrite <- take_take, firstn_all. reflexivity.
  - rewrite (Z.min_r a) by lia.
    rewrite !skipn_all2 by lia. rewrite !take_nil. reflexivity.
Qed.

Lemma windows_concat {A : Type} (L n : nat) (l : list A) :
  concat (map (fun i => take L (skipn (i * L) l)) (seq 0 n)) = take (n * L) l.
Proof.
  induction n as [| n IH]; [reflexivity |].
  rewrite seq_S, map_app, concat_app, IH. cbn [map concat Nat.add].
  rewrite app_nil_r, take_take_drop. f_equal. lia.
Qed.

Lemma ceil_div_covers (a b : Z) : 0 < b -> a <= Api.ceil_div a b * b.
Proof.
  intros Hb. unfold Api.ceil_div.
  pose proof (Z.mul_div_le (- a) b Hb). lia.
Qed.

Lemma number_or_show (n d : Z) : 1 <= n -> Api.number_or (Some (show n)) d = n.
Proof.
  intros Hn. unfold Api.number_or. cbn [mbind option_bind].
  rewrite parseInt_of_show by lia.
  destruct (Z.eqb_spec n 0); [lia | reflexivity].
Qed.

(** X24. With a limit of one or more, the pages from the first to the
    last, put end to end, are the users that match the filter: each one
    once, in their order. *)
Theorem users_pages_partition (query_limit query_filter : option string) :
  1 <= Api.limit (Api.users_response None query_limit query_filter)
    <= MAX_SAFE_INTEGER ->
  concat (all_pages query_limit query_filter) = Api.filteredUsers query_filter.
Proof.
  unfold all_pages, Api.users_response.
  cbn [Api.limit Api.pages Api.data].
  set (L := Api.number_or query_limit 10).
  set (l := Api.filteredUsers query_filter).
  intros [HL _].
  pose proof (ceil_div_covers (Z.of_nat (length l)) L ltac:(lia)) as Hcover.
  set (n := Api.ceil_div (Z.of_nat (length l)) L) in *.
  rewrite <- seq_shift, map_map.
  rewrite (map_ext _ (fun i => take (Z.to_nat L) (skipn (i * Z.to_nat L) l))).
  - rewrite windows_concat. apply take_ge.
    assert (0 <= n) by nia.
    rewrite <- Z2Nat.inj_mul by lia. lia.
  - intros i. rewrite number_or_show by lia.
    rewrite slice_window by nia. do 2 f_equal.
    rewrite Z2Nat.inj_mul by lia. lia.
Qed.

Lemma users_pages_partition_witness :
  concat (all_pages (Some "2") (Some "o")) = Api.filteredUsers (Some "o").
Proof.
  apply (users_pages_partition (Some "2") (Some "o")).
  unfold MAX_SAFE_INTEGER. vm_compute. split; discriminate.
Defined.

(** X25. With a limit of one or more, no page holds more users than the
    limit, whatever the page parameter is. *)
Theorem users_page_size (query_page query_limit query_filter : option string) :
  1 <= Api.limit (Api.users_response query_page query_limit query_filter) ->
  Z.of_nat (length (Api.data (Api.users_response query_page query_limit query_filter)))
  <= Api.limit (Api.users_response query_page query_limit query_filter).
Proof.
  unfold Api.users_response. cbn [Api.limit Api.data].
  set (L := Api.number_or query_limit 10).
  set (l := Api.filteredUsers query_filter).
  set (p := Api.number_or query_page 1).
  intros HL. unfold Api.slice. generalize ((p - 1) * L). intros a.
  rewrite length_take, length_skipn.
  destruct (Z.ltb_spec a 0), (Z.ltb_spec (a + L) 0); lia.
Qed.

Lemma users_page_size_witness :
  Z.of_nat (length (Api.data (Api.users_response (Some "-1") (Some "2") None)))
  <= Api.limit (Api.users_response (Some "-1") (Some "2") None).
Proof.
  apply (users_page_size (Some "-1") (Some "2") None). vm_compute. discriminate.
Defined.

(** X26. A request to delete a user gets exactly one answer, and the
    answer is 200 only for an identifier that reads as a number from 2 to
    100; the answer then names that number.  The first user is never
    deleted. *)
Theorem delete_spares_first_user (env : Env) (next : Failure.t -> M unit)
    (param : string) (w : World) :
  headersSent (res w) = false ->
  exists status body,
    Api.delete_user env next param w
    = (Ret tt,
       {| req := req w;
          res := {| statusCode := status; res_headers := res_headers (res w);
                    headersSent := true;
                    sent := sent (res w) ++ [(status, body)] |};
          log := log w; calls := calls w |})
    /\ (status = 200 <->
        exists n, Api.parseInt param = Some n /\ 2 <= n <= 100)
    /\ (status = 200 ->
        exists n, Api.parseInt param = Some n
                  /\ get "id" (get "data" body) = JNum n).
Proof.
  destruct w as [rq [sc hs hsent snt] lg cl]. cbn [res headersSent].
  intros ->. unfold Api.delete_user.
  destruct (Api.parseInt param) as [n |]; cbn [truthy_num negb orb default from_option].
  2:{ run. cbn. do 2 eexists. split; [reflexivity |].
      split; [split; [discriminate | intros (n & Hn & _); discriminate] | discriminate]. }
  unfold Datatypes.id.
  destruct (Z.eqb_spec n 0) as [-> | Hn0]; cbn [negb orb].
  { run. cbn. do 2 eexists. split; [reflexivity |].
    split; [split; [discriminate | intros (n & [= <-] & ?); lia] | discriminate]. }
  destruct (Z.ltb_spec n 1) as [Hlt | Hge].
  { run. cbn. do 2 eexists. split; [reflexivity |].
    split; [split; [discriminate | intros (m & [= <-] & ?); lia] | discriminate]. }
  destruct (Z.ltb_spec 100 n) as [Hbig | Hsmall].
  { run. cbn. do 2 eexists. split; [reflexivity |].
    split; [split; [discriminate | intros (m & [= <-] & ?); lia] | discriminate]. }
  destruct (Z.eqb_spec n 1) as [-> | Hn1].
  { run. cbn. do 2 eexists. split; [reflexivity |].
    split; [split; [discriminate | intros (m & [= <-] & ?); lia] | discriminate]. }
  run. cbn. do 2 eexists. split; [reflexivity |].
  split; [split; [intros _; exists n; split; [reflexivity | lia] | reflexivity] |].
  intros _. exists n. split; reflexivity.
Qed.

Lemma delete_spares_first_user_witness :
  exists status body,
    Api.delete_user repository_env (fun _ => mret tt) "1" (start users_request)
    = (Ret tt,
       {| req := users_request;
          res := {| statusCode := status; res_headers := [];
                    headersSent := true;
                    sent := [] ++ [(status, body)] |};
          log := []; calls := 0%nat |})
    /\ (status = 200 <->
        exists n, Api.parseInt "1" = Some n /\ 2 <= n <= 100)
    /\ (status = 200 ->
        exists n, Api.parseInt "1" = Some n
                  /\ get "id" (get "data" body) = JNum n).
Proof.
  apply (delete_spares_first_user repository_env (fun _ => mret tt) "1"
           (start users_request)).
  reflexivity.
Defined.

(** *** The e-mail pattern *)

Lemma code_char (c : ascii) (n : N) : code c = n -> c = ascii_of_N n.
Proof. intros <-. unfold code. symmetry. apply ascii_N_embedding. Qed.

Lemma nonempty_eqb (s : string) :
  negb (String.eqb s EmptyString) = true <-> s <> EmptyString.
Proof. destruct s; cbn; split; (congruence || discriminate || reflexivity || tauto). Qed.

Lemma all_plain_app (a b : string) :
  all_chars Api.plain (a +:+ b) = all_chars Api.plain a && all_chars Api.plain b.
Proof.
  induction a as [| c a IH]; [reflexivity |].
  change (String c a +:+ b) with (String c (a +:+ b)).
  cbn [all_chars]. rewrite IH, andb_assoc. reflexivity.
Qed.

Lemma domain_part_sound (s : string) (seen : bool) :
  Api.domain_part seen s = true ->
  exists b c, s = b +:+ "." +:+ c
              /\ (seen = true \/ b <> EmptyString) /\ c <> EmptyString
              /\ all_chars Api.plain b = true /\ all_chars Api.plain c = true.
Proof.
  revert seen. induction s as [| ch s IH]; intros seen; [discriminate |].
  cbn [Api.domain_part].
  intros [Hdot | [Hch Hrest]%andb_true_iff]%orb_true_iff.
  - apply andb_true_iff in Hdot as [[[Hseen Hc%N.eqb_eq]%andb_true_iff Hall]%andb_true_iff Hne].
    exists EmptyString, s. rewrite (code_char ch 46 Hc).
    repeat split; try assumption; [left; exact Hseen | apply nonempty_eqb, Hne].
  - destruct (IH true Hrest) as (b & c & -> & _ & Hc & Hb & Hcs).
    exists (String ch b), c. repeat split; try assumption.
    + right. discriminate.
    + cbn [all_chars]. rewrite Hch, Hb. reflexivity.
Qed.

Lemma domain_part_complete (b c : string) (seen : bool) :
  (seen = true \/ b <> EmptyString) -> c <> EmptyString ->
  all_chars Api.plain b = true -> all_chars Api.plain c = true ->
  Api.domain_part seen (b +:+ "." +:+ c) = true.
Proof.
  revert seen. induction b as [| ch b IH]; intros seen Hseen Hc Hb Hcs.
  - destruct Hseen as [-> | ?]; [| contradiction].
    change (EmptyString +:+ "." +:+ c) with (String "." c).
    cbn [Api.domain_part]. rewrite Hcs. apply nonempty_eqb in Hc. rewrite Hc.
    reflexivity.
  - change (String ch b +:+ "." +:+ c) with (String ch (b +:+ "." +:+ c)).
    cbn [Api.domain_part all_chars] in *.
    apply andb_true_iff in Hb as [Hch Hb].
    rewrite Hch, (IH true) by (assumption || (left; reflexivity)).
    apply orb_true_r.
Qed.

Lemma local_part_sound (s : string) (seen : bool) :
  Api.local_part seen s = true ->
  exists a rest, s = a +:+ "@" +:+ rest
                 /\ (seen = true \/ a <> EmptyString)
                 /\ all_chars Api.plain a = true
                 /\ Api.domain_part false rest = true.
Proof.
  revert seen. induction s as [| ch s IH]; intros seen; [discriminate |].
  cbn [Api.local_part].
  intros [Hat | [Hch Hrest]%andb_true_iff]%orb_true_iff.
  - apply andb_true_iff in Hat as [[Hseen Hc%N.eqb_eq]%andb_true_iff Hdom].
    exists EmptyString, s. rewrite (code_char ch 64 Hc).
    repeat split; try assumption. left. exact Hseen.
  - destruct (IH true Hrest) as (a & rest & -> & _ & Ha & Hdom).
    exists (String ch a), rest. repeat split; try assumption.
    + right. discriminate.
    + cbn [all_chars]. rewrite Hch, Ha. reflexivity.
Qed.

Lemma local_part_complete (a rest : string) (seen : bool) :
  (seen = true \/ a <> EmptyString) ->
  all_chars Api.plain a = true -> Api.domain_part false rest = true ->
  Api.local_part seen (a +:+ "@" +:+ rest) = true.
Proof.
  revert seen. induction a as [| ch a IH]; intros seen Hseen Ha Hdom.
  - destruct Hseen as [-> | ?]; [| contradiction].
    change (EmptyString +:+ "@" +:+ rest) with (String "@" rest).
    cbn [Api.local_part]. rewrite Hdom. reflexivity.
  - change (String ch a +:+ "@" +:+ rest) with (String ch (a +:+ "@" +:+ rest)).
    cbn [Api.local_part all_chars] in *.
    apply andb_true_iff in Ha as [Hch Ha].
    rewrite Hch, (IH true) by (assumption || (left; reflexivity)).
    apply orb_true_r.
Qed.

(** X27. The e-mail pattern accepts exactly the strings made of three
    non-empty runs free of white space and at signs, joined by an at sign
    and then a dot. *)
Theorem email_pattern_shape (s : string) :
  Api.emailRegex s = true <-> email_shape s.
Proof.
  unfold Api.emailRegex, email_shape. split.
  - intros (a & rest & -> & [? | Ha] & Hpa & Hdom)%local_part_sound;
      [discriminate |].
    apply domain_part_sound in Hdom
      as (b & c & -> & [? | Hb] & Hc & Hpb & Hpc); [discriminate |].
    exists a, b, c. repeat split; assumption.
  - intros (a & b & c & -> & Ha & Hb & Hc & Hpa & Hpb & Hpc).
    apply local_part_complete; [right; exact Ha | exact Hpa |].
    apply domain_part_complete; [right; exact Hb | assumption ..].
Qed.

End Users.
